(** * InfluxDB: batch normalisation and the HTTP handler

    A shallow embedding of two Go packages of the repository:

    - package [influxdb] (the shared error values, [BatchPoints], its JSON
      decoder and [NormalizeBatchPoints]);
    - package [httpd] ([handler.go]: the routes, the request handlers and the
      middleware wrapped around them).

    Go values are modelled as follows.  A [time.Time] is the number of
    nanoseconds since the zero instant (January 1, year 1, 00:00:00 UTC), so
    that [IsZero] is a comparison with [0].  A [map[string]string] is a
    [gmap string string] under an [option], where [None] is the nil map.  A Go
    [error] is a value of the inductive type [error], and a nil error is
    [None].  Functions of packages whose source is not part of this
    development (package [client], [encoding/json], [influxdb.Server]) are
    operations of type classes. *)

From Stdlib Require Import ZArith Lia.
From stdpp Require Import base option strings pretty list gmap.

Local Open Scope Z_scope.

(** ** Package time *)

Module time.

Definition Time : Type := Z.

(** The zero value [time.Time{}]. *)
Definition zero : Time := 0.

Definition IsZero (t : Time) : bool := bool_decide (t = 0).

(** Nanoseconds between the zero instant and the Unix epoch. *)
Definition unixToInternal : Z := 62135596800 * 1000000000.

Definition Nanosecond : Z := 1.
Definition Microsecond : Z := 1000 * Nanosecond.
Definition Millisecond : Z := 1000 * Microsecond.
Definition Second : Z := 1000 * Millisecond.
Definition Minute : Z := 60 * Second.
Definition Hour : Z := 60 * Minute.

End time.

(** ** Package client: the wire form of a point *)

Module client.

(** A value of a point ([interface{}] after JSON decoding); a float is kept
    as its IEEE-754 bit pattern. *)
Inductive scalar :=
| Int (n : Z)
| Float (bits : Z)
| Bool (b : bool)
| String (s : string).

Record Point := {
  Name : string;
  Tags : option (gmap string string);
  Timestamp : time.Time;
  Values : option (gmap string scalar);
  Precision : string
}.

(** The two functions of package client that package influxdb calls. *)
Class Lib := {
  SetPrecision : time.Time -> string -> time.Time;
  EpochToTime : Z -> string -> string + time.Time
}.

End client.

(** ** Package influxdb *)

Module influxdb.

(** The package-level error values.  They are created once by
    [errors.New] and compared by identity. *)
Inductive sentinel :=
| ErrServerOpen | ErrServerClosed | ErrPathRequired | ErrUnableToJoin
| ErrDataNodeURLRequired | ErrDataNodeExists | ErrDataNodeNotFound
| ErrDataNodeRequired | ErrDatabaseNameRequired | ErrDatabaseExists
| ErrDatabaseNotFound | ErrDatabaseRequired | ErrClusterAdminExists
| ErrClusterAdminNotFound | ErrUserExists | ErrUserNotFound
| ErrUsernameRequired | ErrInvalidUsername | ErrRetentionPolicyExists
| ErrRetentionPolicyNotFound | ErrRetentionPolicyNameRequired
| ErrDefaultRetentionPolicyNotFound | ErrShardNotFound
| ErrReadAccessDenied | ErrReadWritePermissionsRequired | ErrInvalidQuery
| ErrMeasurementNameRequired | ErrMeasurementNotFound | ErrValuesRequired
| ErrFieldOverflow | ErrSeriesNotFound | ErrSeriesExists | ErrNotExecuted
| ErrInvalidGrantRevoke | ErrContinuousQueryExists.

Definition sentinel_text (s : sentinel) : string :=
  match s with
  | ErrServerOpen => "server already open"
  | ErrServerClosed => "server already closed"
  | ErrPathRequired => "path required"
  | ErrUnableToJoin => "unable to join"
  | ErrDataNodeURLRequired => "data node url required"
  | ErrDataNodeExists => "data node exists"
  | ErrDataNodeNotFound => "data node not found"
  | ErrDataNodeRequired => "data node required"
  | ErrDatabaseNameRequired => "database name required"
  | ErrDatabaseExists => "database exists"
  | ErrDatabaseNotFound => "database not found"
  | ErrDatabaseRequired => "database required"
  | ErrClusterAdminExists => "cluster admin exists"
  | ErrClusterAdminNotFound => "cluster admin not found"
  | ErrUserExists => "user exists"
  | ErrUserNotFound => "user not found"
  | ErrUsernameRequired => "username required"
  | ErrInvalidUsername => "invalid username"
  | ErrRetentionPolicyExists => "retention policy exists"
  | ErrRetentionPolicyNotFound => "retention policy not found"
  | ErrRetentionPolicyNameRequired => "retention policy name required"
  | ErrDefaultRetentionPolicyNotFound => "default retention policy not found"
  | ErrShardNotFound => "shard not found"
  | ErrReadAccessDenied => "read access denied"
  | ErrReadWritePermissionsRequired => "read/write permissions required"
  | ErrInvalidQuery => "invalid query"
  | ErrMeasurementNameRequired => "measurement name required"
  | ErrMeasurementNotFound => "measurement not found"
  | ErrValuesRequired => "values required"
  | ErrFieldOverflow => "field overflow"
  | ErrSeriesNotFound => "series not found"
  | ErrSeriesExists => "series already exists"
  | ErrNotExecuted => "not executed"
  | ErrInvalidGrantRevoke => "invalid privilege requested"
  | ErrContinuousQueryExists => "continuous query already exists"
  end.

(** A Go [error]: one of the package's own values, an [ErrAuthorize], or an
    error made elsewhere ([fmt.Errorf], [errors.New] at the call site, an
    error of a library), of which only the text is kept. *)
Inductive error :=
| Sentinel (s : sentinel)
| ErrAuthorize (text : string)
| errorString (text : string).

#[global] Instance sentinel_eq_dec : EqDecision sentinel.
Proof. solve_decision. Defined.

#[global] Instance error_eq_dec : EqDecision error.
Proof. solve_decision. Defined.

(** The method [Error()]. *)
Definition Error (e : error) : string :=
  match e with
  | Sentinel s => sentinel_text s
  | ErrAuthorize text => text
  | errorString text => text
  end.

(** [isAuthorizationError] of package influxdb: the error has the marker
    method [authorize], which only [ErrAuthorize] declares. *)
Definition isAuthorizationError (err : error) : bool :=
  match err with
  | ErrAuthorize _ => true
  | _ => false
  end.

(** The point handed to the server, a [client.Point] without its precision. *)
Record Point := {
  Name : string;
  Tags : option (gmap string string);
  Timestamp : time.Time;
  Values : option (gmap string client.scalar)
}.

Record BatchPoints := {
  Points : list client.Point;
  Database : string;
  RetentionPolicy : string;
  BatchTags : option (gmap string string);
  BatchTimestamp : time.Time;
  BatchPrecision : string
}.

(** The zero value [BatchPoints{}] of [var bp influxdb.BatchPoints]. *)
Definition emptyBatch : BatchPoints :=
  {| Points := []; Database := ""; RetentionPolicy := ""; BatchTags := None;
     BatchTimestamp := time.zero; BatchPrecision := "" |}.

(** The two local structs of [UnmarshalJSON]; they differ in the type of
    [Timestamp] only ([time.Time] and [*int64]). *)
Record envelope (T : Type) := {
  ePoints : list client.Point;
  eDatabase : string;
  eRetentionPolicy : string;
  eTags : option (gmap string string);
  eTimestamp : T;
  ePrecision : string
}.
Arguments ePoints {T} _.
Arguments eDatabase {T} _.
Arguments eRetentionPolicy {T} _.
Arguments eTags {T} _.
Arguments eTimestamp {T} _.
Arguments ePrecision {T} _.

(** [json.Unmarshal] into a fresh struct of either shape. *)
Class JSON := {
  Unmarshal_epoch : list Byte.byte -> error + envelope (option Z);
  Unmarshal_normal : list Byte.byte -> error + envelope time.Time
}.

(** Go's [len] of a map; the nil map has length 0. *)
Definition len {V} (m : option (gmap string V)) : Z :=
  match m with
  | None => 0
  | Some m => Z.of_nat (size m)
  end.

Section normalize.
Context `{!client.Lib}.

(** The body of [for k := range bp.Tags], for the key [k] with the value
    [v] it has in the batch: the read [p.Tags[k]] of a missing key is the
    empty string. *)
Definition copyTag (k v : string) (tags : gmap string string) : gmap string string :=
  if decide (default "" (tags !! k) = "") then <[k := v]> tags else tags.

(** Lines 204-213: the point's tag map after the batch tags are folded in.
    The loop body reads and writes the key [k] only, so the order in which
    Go visits the keys does not matter; [map_fold] fixes one. *)
Definition mergeTags (bpTags pTags : option (gmap string string))
  : option (gmap string string) :=
  if bool_decide (len bpTags > 0) then
    let tags := match pTags with None => ∅ | Some t => t end in
    Some (map_fold copyTag tags (default ∅ bpTags))
  else pTags.

(** One iteration of the loop over [bp.Points]; [p] is the loop's copy. *)
Definition normalizePoint (bp : BatchPoints) (p : client.Point) : Point :=
  let ts := if time.IsZero (client.Timestamp p) then BatchTimestamp bp
            else client.Timestamp p in
  let precision :=
    if bool_decide (client.Precision p = "") && negb (bool_decide (BatchPrecision bp = ""))
    then BatchPrecision bp else client.Precision p in
  let ts := client.SetPrecision ts precision in
  let tags := mergeTags (BatchTags bp) (client.Tags p) in
  {| Name := client.Name p; Tags := tags; Timestamp := ts;
     Values := client.Values p |}.

Fixpoint normalizeLoop (bp : BatchPoints) (ps : list client.Point)
    (points : list Point) : list Point :=
  match ps with
  | [] => points
  | p :: ps => normalizeLoop bp ps (points ++ [normalizePoint bp p])
  end.

Definition NormalizeBatchPoints (bp : BatchPoints) : list Point * option error :=
  let points := normalizeLoop bp (Points bp) [] in
  (points, None).

End normalize.

Section unmarshal.
Context `{!client.Lib} `{!JSON}.

(** The closure of lines 153-173: the epoch form.  [bp] is assigned only
    when it returns nil. *)
Definition unmarshalEpoch (b : list Byte.byte) (bp : BatchPoints)
  : BatchPoints * option error :=
  match Unmarshal_epoch b with
  | inl err => (bp, Some err)
  | inr epoch =>
    let conv :=
      match eTimestamp epoch with
      | Some n => client.EpochToTime n (ePrecision epoch)
      | None => inr time.zero
      end in
    match conv with
    | inl msg => (bp, Some (errorString msg))
    | inr ts =>
      ({| Points := ePoints epoch; Database := eDatabase epoch;
          RetentionPolicy := eRetentionPolicy epoch; BatchTags := eTags epoch;
          BatchTimestamp := ts; BatchPrecision := ePrecision epoch |}, None)
    end
  end.

Definition UnmarshalJSON (b : list Byte.byte) (bp : BatchPoints)
  : BatchPoints * option error :=
  match unmarshalEpoch b bp with
  | (bp', None) => (bp', None)
  | (bp', Some _) =>
    match Unmarshal_normal b with
    | inl err => (bp', Some err)
    | inr normal =>
      let ts := client.SetPrecision (eTimestamp normal) (ePrecision normal) in
      ({| Points := ePoints normal; Database := eDatabase normal;
          RetentionPolicy := eRetentionPolicy normal; BatchTags := eTags normal;
          BatchTimestamp := ts; BatchPrecision := ePrecision normal |}, None)
    end
  end.

End unmarshal.

End influxdb.

(** ** The server behind the handler *)

Module server.

Record User := { UserName : string; Admin : bool }.

Record URL := { URL_String : string }.

Record DataNode := { ID : Z; NodeURL : URL }.

Inductive Privilege := NoPrivileges | ReadPrivilege | WritePrivilege | AllPrivileges.

(** [influxdb.Result] and [influxdb.Results]: the handler builds them from
    an error and hands them to the JSON encoder. *)
Record Result := { Series : list string; Err : option influxdb.error }.

Record Results := { ResultList : list Result; ResultsErr : option influxdb.error }.

Record Query := { Statements : list string }.

(** The methods of [*influxdb.Server], of its broker client and of
    [*influxdb.User] that the handler calls, over a server state [S].
    Methods that change the server return the new state. [Authorize] is
    called on a possibly nil user and answers [None] when it panics. *)
Class Ops (S : Type) := {
  DatabaseExists : S -> string -> bool;
  UserCount : S -> Z;
  Authenticate : S -> string -> string -> influxdb.error + User;
  DataNodes : S -> list DataNode;
  DataNodeByURL : S -> URL -> option DataNode;
  ServerID : S -> Z;
  ServerIndex : S -> Z;
  CopyMetastore : S -> list (list Byte.byte) * option influxdb.error;
  CreateDataNode : S -> URL -> S * option influxdb.error;
  DeleteDataNode : S -> Z -> S * option influxdb.error;
  CreateReplica : S -> Z -> S * option influxdb.error;
  WriteSeries : S -> string -> string -> list influxdb.Point
                -> S * (Z * option influxdb.error);
  ExecuteQuery : S -> Query -> string -> option User -> S * Results;
  RunContinuousQueries : S -> S * option influxdb.error;
  Authorize : option User -> Privilege -> string -> option bool;
  ResultsError : Results -> option influxdb.error
}.

End server.

(** ** Package net/http: requests and the response writer *)

Module http.

Definition StatusOK : Z := 200.
Definition StatusCreated : Z := 201.
Definition StatusAccepted : Z := 202.
Definition StatusNoContent : Z := 204.
Definition StatusBadRequest : Z := 400.
Definition StatusUnauthorized : Z := 401.
Definition StatusNotFound : Z := 404.
Definition StatusConflict : Z := 409.
Definition StatusInternalServerError : Z := 500.
Definition StatusBadGateway : Z := 502.

(** [http.Header] and [url.Values]: a key has a list of values. *)
Definition Values : Type := gmap string (list string).

(** [url.Values.Get]: the first value under the key as it is written. *)
Definition Get (h : Values) (k : string) : string :=
  match h !! k with
  | Some (v :: _) => v
  | _ => ""
  end.

(** [textproto.CanonicalMIMEHeaderKey], which the methods of [http.Header]
    apply to their key: the first letter and every letter after a hyphen in
    upper case, the others in lower case; a key with a byte that is not a
    token byte of a header field (a space among them) is left as it is. *)
Definition isTokenByte (c : Ascii.ascii) : bool :=
  let n := Ascii.nat_of_ascii c in
  (Nat.leb 48 n && Nat.leb n 57) || (Nat.leb 65 n && Nat.leb n 90)
  || (Nat.leb 97 n && Nat.leb n 122)
  || existsb (Ascii.eqb c) (String.list_ascii_of_string "!#$%&'*+-.^_`|~").

Definition toUpper (c : Ascii.ascii) : Ascii.ascii :=
  let n := Ascii.nat_of_ascii c in
  if Nat.leb 97 n && Nat.leb n 122 then Ascii.ascii_of_nat (n - 32) else c.

Definition toLower (c : Ascii.ascii) : Ascii.ascii :=
  let n := Ascii.nat_of_ascii c in
  if Nat.leb 65 n && Nat.leb n 90 then Ascii.ascii_of_nat (n + 32) else c.

Fixpoint canonical (upper : bool) (s : string) : string :=
  match s with
  | EmptyString => EmptyString
  | String c rest =>
    let c := if upper then toUpper c else toLower c in
    String c (canonical (Ascii.eqb c (Ascii.ascii_of_nat 45)) rest)
  end.

Definition CanonicalMIMEHeaderKey (s : string) : string :=
  if forallb isTokenByte (String.list_ascii_of_string s) then canonical true s else s.

(** [http.Header.Get], [Set] and [Add]. *)
Definition HeaderGet (h : Values) (k : string) : string :=
  Get h (CanonicalMIMEHeaderKey k).

Definition Set_ (k v : string) (h : Values) : Values :=
  <[CanonicalMIMEHeaderKey k := [v]]> h.

Definition Add (k v : string) (h : Values) : Values :=
  <[CanonicalMIMEHeaderKey k :=
      default [] (h !! CanonicalMIMEHeaderKey k) ++ [v]]> h.

(** [bodyAllowedForStatus] of net/http: a response with a status 1xx, 204
    or 304 has no body, and a write to it is refused. *)
Definition bodyAllowedForStatus (status : Z) : bool :=
  if (100 <=? status) && (status <=? 199) then false
  else if status =? 204 then false
  else if status =? 304 then false
  else true.

(** What the handlers read of a request.  [BasicAuth] is the result of
    [r.BasicAuth()], [None] when its [ok] is false. *)
Record Request := {
  Method : string;
  URLQuery : Values;
  Header : Values;
  BasicAuth : option (string * string);
  Body : list Byte.byte
}.

Record dataNodeJSON := { JSON_ID : Z; JSON_URL : string }.

(** A value written to the response, before its encoding. *)
Inductive Payload :=
| EncodeResult (res : server.Result)
| MarshalResults (res : server.Results) (pretty : bool)
| EncodeDataNodes (a : list dataNodeJSON)
| EncodeDataNode (n : dataNodeJSON)
| MarshalStatus (id index : Z) (pretty : bool)
| Bytes (b : list Byte.byte).

(** A write the response writer accepted: a value, the end of a gzip
    stream, or one of them through a gzip writer.  (To a HEAD request
    net/http accepts the writes and sends none of them.) *)
Inductive Chunk :=
| Data (p : Payload)
| GzipEnd
| Gzipped (c : Chunk).

(** The [http.ResponseWriter] of a request: the status of the first
    [WriteHeader] ([None] before it), the header map, the writes so far and
    the number of gzip writers a write passes through. *)
Record ResponseWriter := {
  status : option Z;
  header : Values;
  body : list Chunk;
  gzip : nat
}.

Definition newResponse : ResponseWriter :=
  {| status := None; header := ∅; body := []; gzip := 0 |}.

End http.

(** ** Package httpd *)

Module httpd.
Import http.

(** Library functions the handlers call: the JSON decoder's scan for the
    next value of a body, the decoding of a [dataNodeJSON], [url.Parse],
    the verb [%q] of [fmt], [strconv.ParseUint], the influxql parser, and
    [buildLogLine], which formats what a response logger recorded. *)
Class Lib := {
  readValue : list Byte.byte -> influxdb.error + list Byte.byte;
  Decode_dataNodeJSON : list Byte.byte -> influxdb.error + dataNodeJSON;
  url_Parse : string -> influxdb.error + server.URL;
  quote : string -> string;
  ParseUint : string -> option Z;
  ParseQuery : string -> influxdb.error + server.Query;
  buildLogLine : ResponseWriter -> Request -> time.Time -> string
}.

(** A call of a method that changes the server. *)
Inductive Call :=
| CallWriteSeries (database retentionPolicy : string) (points : list influxdb.Point)
| CallCreateDataNode (u : server.URL)
| CallDeleteDataNode (id : Z)
| CallCreateReplica (id : Z)
| CallExecuteQuery (q : server.Query) (db : string) (user : option server.User)
| CallRunContinuousQueries.

Section handlers.
Context {S : Type} `{!server.Ops S} `{!Lib} `{!client.Lib} `{!influxdb.JSON}.

(** Everything a request handler reads or changes: the server, the request
    (a pointer in Go: [requestID] writes to its header), the response
    writer, the lines printed to the logger [weblog], the calls made to the
    server, the wall clock and the UUIDs the generator will hand out. *)
Record World := {
  srv : S;
  req : Request;
  resp : ResponseWriter;
  weblog : list string;
  calls : list Call;
  clock : time.Time;
  uuids : list string
}.

Definition set_srv (s : S) (σ : World) : World :=
  {| srv := s; req := req σ; resp := resp σ; weblog := weblog σ;
     calls := calls σ; clock := clock σ; uuids := uuids σ |}.
Definition set_req (r : Request) (σ : World) : World :=
  {| srv := srv σ; req := r; resp := resp σ; weblog := weblog σ;
     calls := calls σ; clock := clock σ; uuids := uuids σ |}.
Definition set_resp (w : ResponseWriter) (σ : World) : World :=
  {| srv := srv σ; req := req σ; resp := w; weblog := weblog σ;
     calls := calls σ; clock := clock σ; uuids := uuids σ |}.
Definition set_weblog (l : list string) (σ : World) : World :=
  {| srv := srv σ; req := req σ; resp := resp σ; weblog := l;
     calls := calls σ; clock := clock σ; uuids := uuids σ |}.
Definition set_calls (c : list Call) (σ : World) : World :=
  {| srv := srv σ; req := req σ; resp := resp σ; weblog := weblog σ;
     calls := c; clock := clock σ; uuids := uuids σ |}.
Definition set_uuids (u : list string) (σ : World) : World :=
  {| srv := srv σ; req := req σ; resp := resp σ; weblog := weblog σ;
     calls := calls σ; clock := clock σ; uuids := u |}.

(** *** Running Go code: return or panic *)

Inductive Outcome (A : Type) :=
| Returned (a : A) (σ : World)
| Panicked (v : string) (σ : World).
Arguments Returned {A} a σ.
Arguments Panicked {A} v σ.

Definition M (A : Type) : Type := World -> Outcome A.

Definition ret {A} (a : A) : M A := fun σ => Returned a σ.

Definition bind {A B} (m : M A) (k : A -> M B) : M B :=
  fun σ =>
    match m σ with
    | Returned a σ' => k a σ'
    | Panicked v σ' => Panicked v σ'
    end.

Definition panic {A} (v : string) : M A := fun σ => Panicked v σ.

(** [defer d] before [body]: [d] runs when [body] returns and when it
    panics; the panic goes on after it. *)
Definition defer {A} (d : M unit) (body : M A) : M A :=
  fun σ =>
    match body σ with
    | Returned a σ' =>
      match d σ' with
      | Returned _ σ'' => Returned a σ''
      | Panicked v σ'' => Panicked v σ''
      end
    | Panicked v σ' =>
      match d σ' with
      | Returned _ σ'' => Panicked v σ''
      | Panicked v' σ'' => Panicked v' σ''
      end
    end.

(** The builtin [recover] called by the function body itself, not by a
    deferred function: the Go specification gives it the value nil; the
    code after a call that panicked is not run, so it is only reached when
    nothing panics. *)
Definition recover : M (option string) := ret None.

Definition get {A} (f : World -> A) : M A := fun σ => Returned (f σ) σ.
Definition modify (f : World -> World) : M unit := fun σ => Returned tt (f σ).

(** The world an outcome ends in. *)
Definition final {A} (o : Outcome A) : World :=
  match o with
  | Returned _ σ => σ
  | Panicked _ σ => σ
  end.

#[local] Instance M_ret : MRet M := @ret.
#[local] Instance M_bind : MBind M := fun A B k m => bind m k.

(** *** The response writer *)

Definition wrap (n : nat) (c : Chunk) : Chunk := Nat.iter n Gzipped c.

(** [w.WriteHeader(code)]: the first call fixes the status. *)
Definition WriteHeader (code : Z) : M unit :=
  modify (fun σ =>
    let w := resp σ in
    set_resp {| status := match status w with None => Some code | Some c => Some c end;
                header := header w; body := body w; gzip := gzip w |} σ).

(** [w.Write(b)]: a write before any [WriteHeader] sends status 200; a
    write to a response whose status allows no body is refused, with an
    error that the callers here ignore. *)
Definition Write (p : Chunk) : M unit :=
  modify (fun σ =>
    let w := resp σ in
    let sent := match status w with None => StatusOK | Some c => c end in
    set_resp {| status := Some sent;
                header := header w;
                body := if bodyAllowedForStatus sent then body w ++ [wrap (gzip w) p]
                        else body w;
                gzip := gzip w |} σ).

(** A change of the map [w.Header()]. *)
Definition Header_ (f : Values -> Values) : M unit :=
  modify (fun σ =>
    let w := resp σ in
    set_resp {| status := status w; header := f (header w); body := body w;
                gzip := gzip w |} σ).

Definition set_gzip (n : nat) : M unit :=
  modify (fun σ =>
    let w := resp σ in
    set_resp {| status := status w; header := header w; body := body w; gzip := n |} σ).

(** *** Calls to the server *)

Definition call {A} (c : Call) (f : S -> S * A) : M A :=
  fun σ =>
    let '(s, a) := f (srv σ) in
    Returned a (set_calls (calls σ ++ [c]) (set_srv s σ)).

(** *** Writing results and errors *)

Definition isAuthorizationError (err : influxdb.error) : bool :=
  match err with
  | influxdb.ErrAuthorize _ => true
  | _ => false
  end.

Definition httpResults (results : server.Results) (pretty : bool) : M unit :=
  match server.ResultsError results with
  | Some err =>
    if isAuthorizationError err then WriteHeader StatusUnauthorized
    else WriteHeader StatusInternalServerError
  | None => ret tt
  end ;;
  Header_ (Add "content-type" "application/json") ;;
  Write (Data (MarshalResults results pretty)).

Definition httpError (error : string) (pretty : bool) (code : Z) : M unit :=
  Header_ (Add "content-type" "application/json") ;;
  WriteHeader code ;;
  let results := {| server.ResultList := [];
                    server.ResultsErr := Some (influxdb.errorString error) |} in
  Write (Data (MarshalResults results pretty)).

(** *** The request handlers *)

Definition serveQuery (user : option server.User) : M unit :=
  q ← get (fun σ => URLQuery (req σ));
  let db := Get q "db" in
  let pretty := bool_decide (Get q "pretty" = "true") in
  match ParseQuery (Get q "q") with
  | inl err => httpError ("error parsing query: " +:+ influxdb.Error err) pretty StatusBadRequest
  | inr query =>
    results ← call (CallExecuteQuery query db user)
                   (fun s => server.ExecuteQuery s query db user);
    httpResults results pretty
  end.

(** [dec.Decode(&bp)]: the decoder scans the next JSON value of the body
    and hands its bytes to [bp.UnmarshalJSON]. *)
Definition Decode (body : list Byte.byte) (bp : influxdb.BatchPoints)
  : influxdb.BatchPoints * option influxdb.error :=
  match readValue body with
  | inl err => (bp, Some err)
  | inr b => influxdb.UnmarshalJSON b bp
  end.

(** The closure [writeError] of [serveWrite]. *)
Definition writeError (result : server.Result) (statusCode : Z) : M unit :=
  WriteHeader statusCode ;;
  Header_ (Add "content-type" "application/json") ;;
  Write (Data (EncodeResult result)).

Definition nilDereference : string :=
  "runtime error: invalid memory address or nil pointer dereference".

Definition errResult (text : string) : server.Result :=
  {| server.Series := []; server.Err := Some (influxdb.errorString text) |}.

(** [serveWrite] reads the field [requireAuthentication] of its handler. *)
Definition serveWrite (requireAuthentication : bool) (user : option server.User) : M unit :=
  body ← get (fun σ => Body (req σ));
  match Decode body influxdb.emptyBatch with
  | (_, Some err) =>
    if bool_decide (influxdb.Error err = "EOF") then WriteHeader StatusOK
    else writeError {| server.Series := []; server.Err := Some err |}
                    StatusInternalServerError
  | (bp, None) =>
    if bool_decide (influxdb.Database bp = "") then
      writeError (errResult "database is required") StatusInternalServerError
    else
      known ← get (fun σ => server.DatabaseExists (srv σ) (influxdb.Database bp));
      if negb known then
        writeError (errResult ("database not found: " +:+ quote (influxdb.Database bp)))
                   StatusNotFound
      else
        denied ← (if requireAuthentication then
                    match server.Authorize user server.WritePrivilege (influxdb.Database bp) with
                    | Some ok => ret (negb ok)
                    | None => panic nilDereference
                    end
                  else ret false);
        if (denied : bool) then
          match user with
          | None => panic nilDereference
          | Some u =>
            writeError (errResult (quote (server.UserName u)
                          +:+ " user is not authorized to write to database "
                          +:+ quote (influxdb.Database bp)))
                       StatusUnauthorized
          end
        else
          match influxdb.NormalizeBatchPoints bp with
          | (_, Some err) =>
            writeError {| server.Series := []; server.Err := Some err |}
                       StatusInternalServerError
          | (points, None) =>
            res ← call (CallWriteSeries (influxdb.Database bp) (influxdb.RetentionPolicy bp) points)
                       (fun s => server.WriteSeries s (influxdb.Database bp)
                                   (influxdb.RetentionPolicy bp) points);
            match snd res with
            | Some err =>
              writeError {| server.Series := []; server.Err := Some err |}
                         StatusInternalServerError
            | None => ret tt
            end
          end
  end.

Definition dquote : string := String (Ascii.ascii_of_nat 34) EmptyString.

Definition serveMetastore : M unit :=
  Header_ (Set_ "Content-Type" "application/octet-stream") ;;
  Header_ (Set_ "Content-Disposition"
             ("attachment; filename=" +:+ dquote +:+ "meta" +:+ dquote)) ;;
  copy ← get (fun σ => server.CopyMetastore (srv σ));
  foldr (fun b k => Write (Data (Bytes b)) ;; k) (ret tt) (fst copy) ;;
  match snd copy with
  | Some err => httpError (influxdb.Error err) false StatusInternalServerError
  | None => ret tt
  end.

Definition serveStatus : M unit :=
  Header_ (Add "content-type" "application/json") ;;
  q ← get (fun σ => URLQuery (req σ));
  let pretty := bool_decide (Get q "pretty" = "true") in
  id ← get (fun σ => server.ServerID (srv σ));
  index ← get (fun σ => server.ServerIndex (srv σ));
  Write (Data (MarshalStatus id index pretty)).

Definition servePing : M unit := WriteHeader StatusNoContent.

Definition serveDataNodes : M unit :=
  nodes ← get (fun σ => server.DataNodes (srv σ));
  let a := map (fun n => {| JSON_ID := server.ID n;
                            JSON_URL := server.URL_String (server.NodeURL n) |}) nodes in
  Header_ (Add "content-type" "application/json") ;;
  Write (Data (EncodeDataNodes a)).

Definition serveCreateDataNode : M unit :=
  body ← get (fun σ => Body (req σ));
  match Decode_dataNodeJSON body with
  | inl err => httpError (influxdb.Error err) false StatusBadRequest
  | inr n =>
    match url_Parse (JSON_URL n) with
    | inl _ => httpError "invalid data node url" false StatusBadRequest
    | inr u =>
      created ← call (CallCreateDataNode u) (fun s => server.CreateDataNode s u);
      match created with
      | Some err =>
        if decide (err = influxdb.Sentinel influxdb.ErrDataNodeExists) then
          httpError (influxdb.Error err) false StatusConflict
        else httpError (influxdb.Error err) false StatusInternalServerError
      | None =>
        found ← get (fun σ => server.DataNodeByURL (srv σ) u);
        match found with
        | None => panic nilDereference
        | Some node =>
          replica ← call (CallCreateReplica (server.ID node))
                         (fun s => server.CreateReplica s (server.ID node));
          match replica with
          | Some err => httpError (influxdb.Error err) false StatusBadGateway
          | None =>
            WriteHeader StatusCreated ;;
            Header_ (Add "content-type" "application/json") ;;
            Write (Data (EncodeDataNode
                     {| JSON_ID := server.ID node;
                        JSON_URL := server.URL_String (server.NodeURL node) |}))
          end
        end
      end
    end
  end.

Definition serveDeleteDataNode : M unit :=
  q ← get (fun σ => URLQuery (req σ));
  match ParseUint (Get q ":id") with
  | None => httpError "invalid node id" false StatusBadRequest
  | Some nodeID =>
    deleted ← call (CallDeleteDataNode nodeID) (fun s => server.DeleteDataNode s nodeID);
    match deleted with
    | Some err =>
      if decide (err = influxdb.Sentinel influxdb.ErrDataNodeNotFound) then
        httpError (influxdb.Error err) false StatusNotFound
      else httpError (influxdb.Error err) false StatusInternalServerError
    | None => WriteHeader StatusNoContent
    end
  end.

Definition serveProcessContinuousQueries (u : option server.User) : M unit :=
  ran ← call CallRunContinuousQueries server.RunContinuousQueries;
  match ran with
  | Some err => httpError (influxdb.Error err) false StatusInternalServerError
  | None => WriteHeader StatusAccepted
  end.

(** *** Filters *)

Definition parseCredentials (r : Request) : string * string * option influxdb.error :=
  let q := URLQuery r in
  let u := Get q "u" in
  let p := Get q "p" in
  if negb (bool_decide (u = "")) && negb (bool_decide (p = "")) then (u, p, None)
  else
    match BasicAuth r with
    | Some (u, p) => (u, p, None)
    | None => ("", "", Some (influxdb.errorString "unable to parse Basic Auth credentials"))
    end.

Definition authenticate (inner : option server.User -> M unit)
    (requireAuthentication : bool) : M unit :=
  if negb requireAuthentication then inner None
  else
    n ← get (fun σ => server.UserCount (srv σ));
    if requireAuthentication && bool_decide (n > 0) then
      r ← get req;
      match parseCredentials r with
      | (_, _, Some err) => httpError (influxdb.Error err) false StatusUnauthorized
      | (username, password, None) =>
        if bool_decide (username = "") then
          httpError "username required" false StatusUnauthorized
        else
          a ← get (fun σ => server.Authenticate (srv σ) username password);
          match a with
          | inl err => httpError (influxdb.Error err) false StatusUnauthorized
          | inr user => inner (Some user)
          end
      end
    else inner None.

(** [strings.Contains]. *)
Definition Contains (s substr : string) : bool :=
  match String.index 0 substr s with
  | Some _ => true
  | None => false
  end.

(** [gz.Close()]: the end of the gzip stream is written to the writer under
    it, which refuses it when the status allows no body.  The gzip writer
    is taken as unbuffered: what the inner handler writes reaches the
    connection, compressed, at once. *)
Definition gzClose (outer : nat) : M unit :=
  set_gzip outer ;; Write GzipEnd.

Definition gzipFilter (inner : M unit) : M unit :=
  r ← get req;
  if negb (Contains (HeaderGet (Header r) "Accept-Encoding") "gzip") then inner
  else
    Header_ (Set_ "Content-Encoding" "gzip") ;;
    outer ← get (fun σ => gzip (resp σ));
    defer (gzClose outer) (set_gzip (Datatypes.S outer) ;; inner).

Definition versionHeader (inner : M unit) (version : string) : M unit :=
  Header_ (Add "X-Influxdb-Version" version) ;;
  inner.

Definition join (sep : string) (l : list string) : string := String.concat sep l.

Definition cors (inner : M unit) : M unit :=
  r ← get req;
  (let origin := HeaderGet (Header r) "Origin" in
   if negb (bool_decide (origin = "")) then
     Header_ (Set_ "Access-Control-Allow-Origin" origin) ;;
     Header_ (Set_ "Access-Control-Allow-Methods"
                (join ", " ["DELETE"; "GET"; "OPTIONS"; "POST"; "PUT"])) ;;
     Header_ (Set_ "Access-Control-Allow-Headers"
                (join ", " ["Accept"; "Accept-Encoding"; "Authorization";
                            "Content-Length"; "Content-Type"; "X-CSRF-Token";
                            "X-HTTP-Method-Override"]))
   else ret tt) ;;
  if bool_decide (Method r = "OPTIONS") then ret tt
  else inner.

(** [uuid.NewUUID().String()]: the next UUID of the generator, the empty
    string when it has none. *)
Definition NewUUID : M string :=
  fun σ =>
    match uuids σ with
    | [] => Returned "" σ
    | u :: rest => Returned u (set_uuids rest σ)
    end.

Definition set_Header (h : Values) (r : Request) : Request :=
  {| Method := Method r; URLQuery := URLQuery r; Header := h;
     BasicAuth := BasicAuth r; Body := Body r |}.

Definition requestID (inner : M unit) : M unit :=
  uid ← NewUUID;
  modify (fun σ => set_req (set_Header (Set_ "Request-Id" uid (Header (req σ))) (req σ)) σ) ;;
  r ← get req;
  Header_ (Set_ "Request-Id" (HeaderGet (Header r) "Request-Id")) ;;
  inner.

Definition Println (line : string) : M unit :=
  modify (fun σ => set_weblog (weblog σ ++ [line]) σ).

(** The response logger [l] hands every call on to [w] and keeps the status
    and the size for [buildLogLine]; here [buildLogLine] reads them off the
    response writer. *)
Definition logging (inner : M unit) (name : string) : M unit :=
  start ← get clock;
  inner ;;
  l ← get resp;
  r ← get req;
  Println (buildLogLine l r start).

Definition recovery (inner : M unit) (name : string) : M unit :=
  start ← get clock;
  inner ;;
  err ← recover;
  match err with
  | Some err =>
    l ← get resp;
    r ← get req;
    Println (buildLogLine l r start +:+ " [err:" +:+ err +:+ "]")
  | None => ret tt
  end.

(** *** Routes *)

(** The two function types a route's [handlerFunc] may have. *)
Inductive handlerFunc :=
| WithUser (hf : option server.User -> M unit)
| Plain (hf : M unit).

Record route := {
  name : string;
  method : string;
  pattern : string;
  handler : handlerFunc
}.

(** An entry of the pattern mux: [h.mux.Add(method, pattern, handler)]. *)
Record muxEntry := {
  muxMethod : string;
  muxPattern : string;
  muxHandler : M unit
}.

Record Handler := {
  routes : list route;
  mux : list muxEntry;
  requireAuthentication : bool
}.

Definition theRoutes (requireAuthentication : bool) : list route :=
  [ {| name := "query"; method := "GET"; pattern := "/query";
       handler := WithUser serveQuery |};
    {| name := "write"; method := "POST"; pattern := "/write";
       handler := WithUser (serveWrite requireAuthentication) |};
    {| name := "data_nodes_index"; method := "GET"; pattern := "/data_nodes";
       handler := Plain serveDataNodes |};
    {| name := "data_nodes_create"; method := "POST"; pattern := "/data_nodes";
       handler := Plain serveCreateDataNode |};
    {| name := "data_nodes_delete"; method := "DELETE"; pattern := "/data_nodes/:id";
       handler := Plain serveDeleteDataNode |};
    {| name := "metastore"; method := "GET"; pattern := "/metastore";
       handler := Plain serveMetastore |};
    {| name := "status"; method := "GET"; pattern := "/status";
       handler := Plain serveStatus |};
    {| name := "ping"; method := "GET"; pattern := "/ping";
       handler := Plain servePing |};
    {| name := "process_continuous_queries"; method := "POST";
       pattern := "/process_continuous_queries";
       handler := WithUser serveProcessContinuousQueries |} ].

(** The body of the loop over [h.routes]. *)
Definition wrapRoute (requireAuthentication : bool) (version : string) (r : route)
  : muxEntry :=
  let handler :=
    match handler r with
    | WithUser hf => authenticate hf requireAuthentication
    | Plain hf => hf
    end in
  let handler := gzipFilter handler in
  let handler := versionHeader handler version in
  let handler := cors handler in
  let handler := requestID handler in
  let handler := logging handler (name r) in
  let handler := recovery handler (name r) in
  {| muxMethod := method r; muxPattern := pattern r; muxHandler := handler |}.

Definition NewHandler (requireAuthentication : bool) (version : string) : Handler :=
  let routes := theRoutes requireAuthentication in
  {| routes := routes;
     mux := fold_left (fun mux r => mux ++ [wrapRoute requireAuthentication version r])
                      routes [];
     requireAuthentication := requireAuthentication |}.

End handlers.

Arguments Returned {S A} a σ.
Arguments Panicked {S A} v σ.
Arguments World S : clear implicits.
Arguments Outcome S A : clear implicits.
Arguments M S A : clear implicits.
Arguments handlerFunc S : clear implicits.
Arguments route S : clear implicits.
Arguments muxEntry S : clear implicits.
Arguments Handler S : clear implicits.

End httpd.

(** ** Concrete libraries and a concrete server

    The statements below hold for every implementation of the functions the
    two packages import.  To run the code on concrete batches and requests,
    this module fixes one implementation of each. *)

Module sample.

(** Modelled from the spec: [client.SetPrecision] and [client.EpochToTime];
    package client is not part of the development.  The spec (4.5, rule 2)
    reads a timestamp in the unit of a precision among n, u, ms, s, m and h
    and in nanoseconds otherwise, and (section 8) takes a timestamp at
    precision P to be the timestamp truncated to P; its scenario 3 places
    epoch 1700000000 at precision s at 1700000000000000000 nanoseconds after
    the Unix epoch. *)
Definition unitOf (precision : string) : Z :=
  if bool_decide (precision = "u") then time.Microsecond
  else if bool_decide (precision = "ms") then time.Millisecond
  else if bool_decide (precision = "s") then time.Second
  else if bool_decide (precision = "m") then time.Minute
  else if bool_decide (precision = "h") then time.Hour
  else time.Nanosecond.

Definition SetPrecision (t : time.Time) (precision : string) : time.Time :=
  t - t `mod` unitOf precision.

Definition EpochToTime (epoch : Z) (precision : string) : string + time.Time :=
  inr (time.unixToInternal + epoch * unitOf precision).

#[export] Instance clientLib : client.Lib :=
  {| client.SetPrecision := SetPrecision; client.EpochToTime := EpochToTime |}.

(** A point named cpu with one value, no tags and no timestamp. *)
Definition cpu : client.Point :=
  {| client.Name := "cpu"; client.Tags := None; client.Timestamp := time.zero;
     client.Values := Some {[ "v" := client.Int 1 ]}; client.Precision := "" |}.

(** A batch without a timestamp holding [cpu]. *)
Definition untimed : influxdb.BatchPoints :=
  {| influxdb.Points := [cpu]; influxdb.Database := "db";
     influxdb.RetentionPolicy := ""; influxdb.BatchTags := None;
     influxdb.BatchTimestamp := time.zero; influxdb.BatchPrecision := "" |}.

(** A batch stamped one hour and one nanosecond after the zero instant, at
    precision s, with the tag host=a, holding [cpu]. *)
Definition stamped : influxdb.BatchPoints :=
  {| influxdb.Points := [cpu]; influxdb.Database := "db";
     influxdb.RetentionPolicy := ""; influxdb.BatchTags := Some {[ "host" := "a" ]};
     influxdb.BatchTimestamp := time.Hour + 1; influxdb.BatchPrecision := "s" |}.

(** A point with neither a name nor values, and a batch holding it. *)
Definition blank : client.Point :=
  {| client.Name := ""; client.Tags := None; client.Timestamp := time.zero;
     client.Values := None; client.Precision := "" |}.

Definition unvalidated : influxdb.BatchPoints :=
  {| influxdb.Points := [blank]; influxdb.Database := "db";
     influxdb.RetentionPolicy := ""; influxdb.BatchTags := None;
     influxdb.BatchTimestamp := time.zero; influxdb.BatchPrecision := "" |}.

(** A point that carries the tag host with the empty string as its value,
    in a batch whose envelope has host=a. *)
Definition emptyHost : client.Point :=
  {| client.Name := "cpu"; client.Tags := Some {[ "host" := "" ]};
     client.Timestamp := time.zero;
     client.Values := Some {[ "v" := client.Int 1 ]}; client.Precision := "" |}.

Definition overridden : influxdb.BatchPoints :=
  {| influxdb.Points := [emptyHost]; influxdb.Database := "db";
     influxdb.RetentionPolicy := ""; influxdb.BatchTags := Some {[ "host" := "a" ]};
     influxdb.BatchTimestamp := time.zero; influxdb.BatchPrecision := "" |}.

(** Decoders for bodies of the forms [{}] and [{"key":"value"}] with one
    string member, enough to run the handlers below; every other body is a
    syntax error to them. *)
Definition dq : Ascii.ascii := Ascii.ascii_of_nat 34.

Fixpoint dropPrefix (p s : string) : option string :=
  match p, s with
  | EmptyString, _ => Some s
  | String a p', String b s' => if Ascii.eqb a b then dropPrefix p' s' else None
  | String _ _, EmptyString => None
  end.

Fixpoint untilQuote (s : string) : option (string * string) :=
  match s with
  | EmptyString => None
  | String c rest =>
    if Ascii.eqb c dq then Some (EmptyString, rest)
    else match untilQuote rest with
         | Some (v, r) => Some (String c v, r)
         | None => None
         end
  end.

Definition object (key value : string) : string :=
  "{" +:+ httpd.dquote +:+ key +:+ httpd.dquote +:+ ":"
      +:+ httpd.dquote +:+ value +:+ httpd.dquote +:+ "}".

Definition member (key : string) (b : list Byte.byte) : option string :=
  match dropPrefix ("{" +:+ httpd.dquote +:+ key +:+ httpd.dquote +:+ ":" +:+ httpd.dquote)
                   (String.string_of_list_byte b) with
  | Some rest =>
    match untilQuote rest with
    | Some (v, tail) => if bool_decide (tail = "}") then Some v else None
    | None => None
    end
  | None => None
  end.

Definition bytesOf (s : string) : list Byte.byte := String.list_byte_of_string s.

Definition emptyEnvelope {T} (ts : T) : influxdb.envelope T :=
  {| influxdb.ePoints := []; influxdb.eDatabase := ""; influxdb.eRetentionPolicy := "";
     influxdb.eTags := None; influxdb.eTimestamp := ts; influxdb.ePrecision := "" |}.

Definition withDatabase {T} (db : string) (ts : T) : influxdb.envelope T :=
  {| influxdb.ePoints := []; influxdb.eDatabase := db; influxdb.eRetentionPolicy := "";
     influxdb.eTags := None; influxdb.eTimestamp := ts; influxdb.ePrecision := "" |}.

Definition syntaxError : influxdb.error :=
  influxdb.errorString "invalid character".

Definition Unmarshal_epoch (b : list Byte.byte) : influxdb.error + influxdb.envelope (option Z) :=
  if bool_decide (String.string_of_list_byte b = "{}") then inr (emptyEnvelope None)
  else match member "database" b with
       | Some db => inr (withDatabase db None)
       | None => inl syntaxError
       end.

(** The one time string this decoder knows is the first second of year 1. *)
Definition Unmarshal_normal (b : list Byte.byte) : influxdb.error + influxdb.envelope time.Time :=
  if bool_decide (String.string_of_list_byte b = "{}") then inr (emptyEnvelope time.zero)
  else match member "database" b with
       | Some db => inr (withDatabase db time.zero)
       | None =>
         if bool_decide (member "timestamp" b = Some "0001-01-01T00:00:01Z")
         then inr (emptyEnvelope time.Second)
         else inl syntaxError
       end.

#[export] Instance json : influxdb.JSON :=
  {| influxdb.Unmarshal_epoch := Unmarshal_epoch;
     influxdb.Unmarshal_normal := Unmarshal_normal |}.

Fixpoint digits (s : string) (acc : Z) : option Z :=
  match s with
  | EmptyString => Some acc
  | String c rest =>
    let n := Z.of_nat (Ascii.nat_of_ascii c) - 48 in
    if bool_decide (0 <= n <= 9) then digits rest (10 * acc + n) else None
  end.

#[export] Instance httpLib : httpd.Lib :=
  {| httpd.readValue b :=
       match b with
       | [] => inl (influxdb.errorString "EOF")
       | _ => inr b
       end;
     httpd.Decode_dataNodeJSON b :=
       match member "url" b with
       | Some u => inr {| http.JSON_ID := 0; http.JSON_URL := u |}
       | None => inl syntaxError
       end;
     httpd.url_Parse s :=
       if httpd.Contains s "%zz" then inl (influxdb.errorString "invalid URL escape")
       else inr {| server.URL_String := s |};
     httpd.quote s := httpd.dquote +:+ s +:+ httpd.dquote;
     httpd.ParseUint s := if bool_decide (s = "") then None else digits s 0;
     httpd.ParseQuery s :=
       if bool_decide (s = "") then inl (influxdb.errorString "unexpected end of query")
       else inr {| server.Statements := [s] |};
     httpd.buildLogLine l r start :=
       http.Method r +:+ " " +:+ pretty (default 0 (http.status l)) |}.

(** Modelled from the spec: a server in memory, in place of
    [influxdb.Server], whose source is not part of the development.  It
    keeps the users with their passwords, the database names, the data
    nodes with the next id to assign (spec 4.3: a duplicate URL fails with
    [ErrDataNodeExists], an empty one with [ErrDataNodeURLRequired], ids
    grow and are not reused), whether the broker can be reached, and the
    batches written. *)
Record state := {
  users : list (string * string);
  databases : list string;
  nodes : list server.DataNode;
  nextID : Z;
  brokerUp : bool;
  written : list (string * string * list influxdb.Point)
}.

Definition byURL (s : state) (u : server.URL) : option server.DataNode :=
  find (fun n => bool_decide (server.URL_String (server.NodeURL n) = server.URL_String u))
       (nodes s).

Definition CreateDataNode (s : state) (u : server.URL) : state * option influxdb.error :=
  if bool_decide (server.URL_String u = "") then
    (s, Some (influxdb.Sentinel influxdb.ErrDataNodeURLRequired))
  else
    match byURL s u with
    | Some _ => (s, Some (influxdb.Sentinel influxdb.ErrDataNodeExists))
    | None =>
      ({| users := users s; databases := databases s;
          nodes := nodes s ++ [{| server.ID := nextID s; server.NodeURL := u |}];
          nextID := nextID s + 1; brokerUp := brokerUp s; written := written s |}, None)
    end.

Definition DeleteDataNode (s : state) (id : Z) : state * option influxdb.error :=
  if existsb (fun n => bool_decide (server.ID n = id)) (nodes s) then
    ({| users := users s; databases := databases s;
        nodes := filter (fun n => server.ID n ≠ id) (nodes s);
        nextID := nextID s; brokerUp := brokerUp s; written := written s |}, None)
  else (s, Some (influxdb.Sentinel influxdb.ErrDataNodeNotFound)).

Definition WriteSeries (s : state) (db rp : string) (points : list influxdb.Point)
  : state * (Z * option influxdb.error) :=
  ({| users := users s; databases := databases s; nodes := nodes s;
      nextID := nextID s; brokerUp := brokerUp s;
      written := written s ++ [(db, rp, points)] |},
   (Z.of_nat (length (written s)) + 1, None)).

#[export] Instance serverOps : server.Ops state :=
  {| server.DatabaseExists s db := bool_decide (db ∈ databases s);
     server.UserCount s := Z.of_nat (length (users s));
     server.Authenticate s u p :=
       if bool_decide ((u, p) ∈ users s) then inr {| server.UserName := u; server.Admin := true |}
       else inl (influxdb.Sentinel influxdb.ErrUserNotFound);
     server.DataNodes := nodes;
     server.DataNodeByURL := byURL;
     server.ServerID s := 1;
     server.ServerIndex s := Z.of_nat (length (written s));
     server.CopyMetastore s := ([], None);
     server.CreateDataNode := CreateDataNode;
     server.DeleteDataNode := DeleteDataNode;
     server.CreateReplica s id :=
       (s, if brokerUp s then None else Some (influxdb.errorString "broker unavailable"));
     server.WriteSeries := WriteSeries;
     server.ExecuteQuery s q db user :=
       (s, {| server.ResultList := []; server.ResultsErr := None |});
     server.RunContinuousQueries s := (s, None);
     server.Authorize user privilege db :=
       match user with
       | Some u => Some (server.Admin u)
       | None => None
       end;
     server.ResultsError := server.ResultsErr |}.

(** A server with [n] users, the database db and no data node. *)
Definition serverWith (n : nat) (up : bool) : state :=
  {| users := replicate n ("admin", "secret"); databases := ["db"]; nodes := [];
     nextID := 1; brokerUp := up; written := [] |}.

Definition request (method : string) (b : list Byte.byte) : http.Request :=
  {| http.Method := method; http.URLQuery := ∅; http.Header := ∅;
     http.BasicAuth := None; http.Body := b |}.

(** The world at the arrival of a request: nothing is written yet. *)
Definition arrival (s : state) (r : http.Request) : httpd.World state :=
  {| httpd.srv := s; httpd.req := r; httpd.resp := http.newResponse;
     httpd.weblog := []; httpd.calls := []; httpd.clock := time.unixToInternal;
     httpd.uuids := ["6ba7b810-9dad-11d1-80b4-00c04fd430c8"] |}.

(** A GET without credentials at a server with one user. *)
Definition anonymousGet : httpd.World state := arrival (serverWith 1 true) (request "GET" []).

(** The body of a request to create the data node http://a:8086, the
    node once created, and a server that has it already. *)
Definition nodeA : list Byte.byte := bytesOf (object "url" "http://a:8086").

Definition urlA : server.URL := {| server.URL_String := "http://a:8086" |}.

Definition created : server.DataNode := {| server.ID := 1; server.NodeURL := urlA |}.

Definition serverWithA (up : bool) : state :=
  (CreateDataNode (serverWith 1 up) urlA).1.

End sample.

(** ** The vocabulary of the statements *)

Section influxdb_vocabulary.
Context `{!client.Lib} `{!influxdb.JSON}.
Import influxdb.

(** The timestamp a point enters normalisation with, and the precision it
    is rounded to. *)
Definition inheritedTimestamp (bp : BatchPoints) (p : client.Point) : time.Time :=
  if time.IsZero (client.Timestamp p) then BatchTimestamp bp else client.Timestamp p.

Definition effectivePrecision (bp : BatchPoints) (p : client.Point) : string :=
  if decide (client.Precision p = "" ∧ BatchPrecision bp ≠ "")
  then BatchPrecision bp else client.Precision p.

(** The five envelope fields other than the timestamp, of a decoded struct
    and of a batch. *)
Definition envelopeFields {T} (e : envelope T)
  : list client.Point * string * string * option (gmap string string) * string :=
  (ePoints e, eDatabase e, eRetentionPolicy e, eTags e, ePrecision e).

Definition batchFields (bp : BatchPoints)
  : list client.Point * string * string * option (gmap string string) * string :=
  (Points bp, Database bp, RetentionPolicy bp, BatchTags bp, BatchPrecision bp).

(** The reading of a body that is tried first: the struct with
    an integer timestamp decodes, and the integer, when there is one,
    converts at the struct's precision. *)
Definition epochReading (b : list Byte.byte) : option (envelope (option Z) * time.Time) :=
  match Unmarshal_epoch b with
  | inl _ => None
  | inr e =>
    match eTimestamp e with
    | None => Some (e, time.zero)
    | Some n =>
      match client.EpochToTime n (ePrecision e) with
      | inl _ => None
      | inr t => Some (e, t)
      end
    end
  end.

End influxdb_vocabulary.

Section httpd_vocabulary.
Context {S : Type} `{!server.Ops S} `{!httpd.Lib} `{!client.Lib} `{!influxdb.JSON}.
Import http httpd.

(** The handler returns, and the response has the status [code]. *)
Definition responds (o : Outcome S unit) (code : Z) : Prop :=
  ∃ σ', o = Returned tt σ' ∧ status (resp σ') = Some code.

(** The handler has left the server alone: no call, no change. *)
Definition untouched (σ : World S) (o : Outcome S unit) : Prop :=
  calls (final o) = calls σ ∧ srv (final o) = srv σ.

(** The last write of the response is the value [p]. *)
Definition wrote (σ : World S) (o : Outcome S unit) (p : Payload) : Prop :=
  body (resp (final o)) = body (resp σ) ++ [wrap (gzip (resp σ)) (Data p)].

(** The request has no usable credentials: one of the URL parameters u and
    p is missing or empty, and [r.BasicAuth()] does not find a well-formed
    Basic Authorization header. *)
Definition noCredentials (r : Request) : Prop :=
  (Get (URLQuery r) "u" = "" ∨ Get (URLQuery r) "p" = "") ∧ BasicAuth r = None.

(** The six wrappers every route gets, outermost first. *)
Definition chain (h : M S unit) (name version : string) : M S unit :=
  recovery (logging (requestID (cors (versionHeader (gzipFilter h) version))) name) name.

(** What the chain of a route is wrapped around. *)
Definition innermost (requireAuthentication : bool) (r : route S) : M S unit :=
  match handler r with
  | WithUser hf => authenticate hf requireAuthentication
  | Plain hf => hf
  end.

Definition takesUser (r : route S) : bool :=
  match handler r with
  | WithUser _ => true
  | Plain _ => false
  end.

(** The world [σ1] in which a wrapper starts the handler it wraps, seen
    from the world [σ] in which the wrapper starts: the server, the
    request's method, URL parameters and Basic credentials, and the
    response's status are the same. *)
Definition same (σ σ1 : World S) : Prop :=
  srv σ1 = srv σ ∧ URLQuery (req σ1) = URLQuery (req σ) ∧
  BasicAuth (req σ1) = BasicAuth (req σ) ∧ Method (req σ1) = Method (req σ) ∧
  status (resp σ1) = status (resp σ).

(** What a wrapper does once the handler it wraps has returned leaves a
    status that is set as it is. *)
Definition keepsStatus (k : Outcome S unit -> Outcome S unit) : Prop :=
  ∀ σ' c, status (resp σ') = Some c ->
    ∃ σ'', k (Returned tt σ') = Returned tt σ'' ∧ status (resp σ'') = Some c.

(** In the world [σ], the wrapper [W] runs the handler it wraps once, in a
    world that is the [same], and keeps the status it sets. *)
Definition around (W : M S unit -> M S unit) (σ : World S) : Prop :=
  ∃ σ1 k, same σ σ1 ∧ keepsStatus k ∧ ∀ h, W h σ = k (h σ1).

End httpd_vocabulary.

(** ** More vocabulary, and more sample requests *)

Section more_influxdb_vocabulary.
Import influxdb.

(** The batch [bp] with other points, and with another timestamp and
    precision. *)
Definition withPoints (bp : BatchPoints) (ps : list client.Point) : BatchPoints :=
  {| Points := ps; Database := Database bp; RetentionPolicy := RetentionPolicy bp;
     BatchTags := BatchTags bp; BatchTimestamp := BatchTimestamp bp;
     BatchPrecision := BatchPrecision bp |}.

Definition restamped (bp : BatchPoints) (t : time.Time) (precision : string) : BatchPoints :=
  {| Points := Points bp; Database := Database bp; RetentionPolicy := RetentionPolicy bp;
     BatchTags := BatchTags bp; BatchTimestamp := t; BatchPrecision := precision |}.

End more_influxdb_vocabulary.

Section more_httpd_vocabulary.
Context {S : Type} `{!server.Ops S} `{!httpd.Lib} `{!client.Lib} `{!influxdb.JSON}.
Import http httpd.

(** The value a handler panicked with, [None] when it returned. *)
Definition panicked {A} (o : Outcome S A) : option string :=
  match o with
  | Returned _ _ => None
  | Panicked v _ => Some v
  end.

(** The status [httpResults] sends for the error of a result set. *)
Definition statusFor (err : option influxdb.error) : Z :=
  match err with
  | None => StatusOK
  | Some (influxdb.ErrAuthorize _) => StatusUnauthorized
  | Some _ => StatusInternalServerError
  end.

(** Whether the write of [user] to [db] goes on to [WriteSeries]: [Some true]
    when it does, [Some false] when it is refused, [None] when the check
    panics. *)
Definition writeAllowed (requireAuthentication : bool) (user : option server.User)
    (db : string) : option bool :=
  if requireAuthentication then server.Authorize user server.WritePrivilege db
  else Some true.

(** The writes of the chunks of a metastore copy, one after the other. *)
Definition writeAll (chunks : list (list Byte.byte)) : M S unit :=
  foldr (fun b k => bind (Write (Data (Bytes b))) (fun _ => k)) (ret tt) chunks.

(** The world in which [gzipFilter] starts the handler it wraps when the
    request accepts gzip. *)
Definition gzipEntry (σ : World S) : World S :=
  set_resp {| status := status (resp σ);
              header := Set_ "Content-Encoding" "gzip" (header (resp σ));
              body := body (resp σ);
              gzip := Datatypes.S (gzip (resp σ)) |} σ.

(** The world [σ1] in which the handler of a route starts, seen from the
    world [σ] of the request's arrival: besides what [same] says, no call
    is made, no line printed and nothing written to the body yet, and the
    request's body is the same. *)
Definition entered (σ σ1 : World S) : Prop :=
  same σ σ1 ∧ calls σ1 = calls σ ∧ weblog σ1 = weblog σ ∧
  body (resp σ1) = body (resp σ) ∧ Body (req σ1) = Body (req σ).

(** What a wrapper does with the outcome [o] of the handler it wraps: a
    panic stays a panic with the same value and a return a return, the
    server and the calls are as the handler left them, and [n] lines are
    printed after a return, none after a panic. *)
Definition passes (n : nat) (k : Outcome S unit -> Outcome S unit) : Prop :=
  ∀ o, panicked (k o) = panicked o ∧ srv (final (k o)) = srv (final o) ∧
       calls (final (k o)) = calls (final o) ∧
       ∃ lines, weblog (final (k o)) = weblog (final o) ++ lines ∧
                length lines = match panicked o with Some _ => 0%nat | None => n end.

Definition wraps (W : M S unit -> M S unit) (n : nat) (σ : World S) : Prop :=
  ∃ σ1 k, entered σ σ1 ∧ passes n k ∧ ∀ h, W h σ = k (h σ1).

(** The server [O] with another [Authenticate], and with another
    [CopyMetastore]: every other method is the one of [O]. *)
Definition withAuthenticate (O : server.Ops S)
    (f : S -> string -> string -> influxdb.error + server.User) : server.Ops S :=
  {| server.DatabaseExists := @server.DatabaseExists S O;
     server.UserCount := @server.UserCount S O;
     server.Authenticate := f;
     server.DataNodes := @server.DataNodes S O;
     server.DataNodeByURL := @server.DataNodeByURL S O;
     server.ServerID := @server.ServerID S O;
     server.ServerIndex := @server.ServerIndex S O;
     server.CopyMetastore := @server.CopyMetastore S O;
     server.CreateDataNode := @server.CreateDataNode S O;
     server.DeleteDataNode := @server.DeleteDataNode S O;
     server.CreateReplica := @server.CreateReplica S O;
     server.WriteSeries := @server.WriteSeries S O;
     server.ExecuteQuery := @server.ExecuteQuery S O;
     server.RunContinuousQueries := @server.RunContinuousQueries S O;
     server.Authorize := @server.Authorize S O;
     server.ResultsError := @server.ResultsError S O |}.

Definition withCopyMetastore (O : server.Ops S)
    (f : S -> list (list Byte.byte) * option influxdb.error) : server.Ops S :=
  {| server.DatabaseExists := @server.DatabaseExists S O;
     server.UserCount := @server.UserCount S O;
     server.Authenticate := @server.Authenticate S O;
     server.DataNodes := @server.DataNodes S O;
     server.DataNodeByURL := @server.DataNodeByURL S O;
     server.ServerID := @server.ServerID S O;
     server.ServerIndex := @server.ServerIndex S O;
     server.CopyMetastore := f;
     server.CreateDataNode := @server.CreateDataNode S O;
     server.DeleteDataNode := @server.DeleteDataNode S O;
     server.CreateReplica := @server.CreateReplica S O;
     server.WriteSeries := @server.WriteSeries S O;
     server.ExecuteQuery := @server.ExecuteQuery S O;
     server.RunContinuousQueries := @server.RunContinuousQueries S O;
     server.Authorize := @server.Authorize S O;
     server.ResultsError := @server.ResultsError S O |}.

End more_httpd_vocabulary.

Module requests.
Import sample.

(** A request with URL parameters and, possibly, Basic credentials. *)
Definition withQuery (method : string) (q : list (string * string))
    (auth : option (string * string)) (b : list Byte.byte) : http.Request :=
  {| http.Method := method;
     http.URLQuery := list_to_map (map (fun kv => (kv.1, [kv.2])) q);
     http.Header := ∅; http.BasicAuth := auth; http.Body := b |}.

(** A request with one header. *)
Definition withHeader (method k v : string) : http.Request :=
  httpd.set_Header (http.Set_ k v ∅) (request method []).

(** A server whose only user is not an administrator. *)
Definition reader : server.User := {| server.UserName := "reader"; server.Admin := false |}.

Definition admin : server.User := {| server.UserName := "admin"; server.Admin := true |}.

(** Requests with credentials in the URL, at a server whose one user is
    admin with the password secret. *)
Definition goodLogin : httpd.World state :=
  arrival (serverWith 1 true) (withQuery "GET" [("u", "admin"); ("p", "secret")] None []).

Definition badLogin : httpd.World state :=
  arrival (serverWith 1 true) (withQuery "GET" [("u", "admin"); ("p", "guess")] None []).

(** A query, a request to delete the data node 1 at a server that has it,
    a write to the database db, a request from another origin and a
    preflight. *)
Definition aQuery : httpd.World state :=
  arrival (serverWith 1 true) (withQuery "GET" [("q", "SELECT 1"); ("db", "db")] None []).

Definition deleteA : httpd.World state :=
  arrival (serverWithA true) (withQuery "DELETE" [(":id", "1")] None []).

Definition writeDb : httpd.World state :=
  arrival (serverWith 1 true) (request "POST" (bytesOf (object "database" "db"))).

Definition crossOrigin : httpd.World state :=
  arrival (serverWith 1 true) (withHeader "GET" "Origin" "http://example.org").

Definition preflight : httpd.World state :=
  arrival (serverWith 1 true) (request "OPTIONS" []).

(** Results that carry the package's error for a denied read. *)
Definition denied : server.Results :=
  {| server.ResultList := [];
     server.ResultsErr := Some (influxdb.Sentinel influxdb.ErrReadAccessDenied) |}.

(** A request whose Basic credentials have an empty user name. *)
Definition emptyName : httpd.World state :=
  arrival (serverWith 1 true) (withQuery "GET" [] (Some ("", "secret")) []).

(** An [Authenticate] that lets everyone in as the reader. *)
Definition lenient : server.Ops state :=
  withAuthenticate serverOps (fun _ _ _ => inr reader).

(** Sample servers whose metastore copy writes two chunks and succeeds,
    fails after the first of them, and fails before writing anything. *)
Definition diskFailure : influxdb.error := influxdb.errorString "disk failure".

Definition copyWorks : server.Ops state :=
  withCopyMetastore serverOps (fun _ => ([bytesOf "meta"; bytesOf "store"], None)).

Definition copyFailsLate : server.Ops state :=
  withCopyMetastore serverOps (fun _ => ([bytesOf "meta"], Some diskFailure)).

Definition copyFailsFirst : server.Ops state :=
  withCopyMetastore serverOps (fun _ => ([], Some diskFailure)).

(** Requests that accept gzip, and one that sends its own request id under
    a key in lower case. *)
Definition gzipGet : httpd.World state :=
  arrival (serverWith 1 true) (withHeader "GET" "Accept-Encoding" "gzip").

Definition ownRequestID : httpd.World state :=
  arrival (serverWith 1 true) (withHeader "GET" "request-id" "mine").

End requests.

(** Unfolds the monad of [httpd] and the response writer's operations. *)
Ltac run :=
  unfold httpd.httpError, httpd.writeError, httpd.WriteHeader, httpd.Write,
    httpd.Header_, httpd.call, httpd.Println, httpd.recover;
  unfold mbind, mret, httpd.M_bind, httpd.M_ret, httpd.bind, httpd.ret,
    httpd.get, httpd.modify, httpd.panic;
  simpl.

(** * Properties of package influxdb *)

Section normalize_facts.
Context `{!client.Lib}.
Import influxdb.

Lemma normalizeLoop_app bp ps acc :
  normalizeLoop bp ps acc = acc ++ map (normalizePoint bp) ps.
Proof.
  revert acc. induction ps as [|p ps IH]; intros acc; simpl.
  - by rewrite app_nil_r.
  - rewrite IH. by rewrite <- app_assoc.
Qed.

Lemma NormalizeBatchPoints_map bp :
  NormalizeBatchPoints bp = (map (normalizePoint bp) (Points bp), None).
Proof. unfold NormalizeBatchPoints. by rewrite normalizeLoop_app. Qed.

Lemma Forall2_map_r_intro {A B} (P : A -> B -> Prop) (f : A -> B) (l : list A) :
  (forall x, P x (f x)) -> Forall2 P l (map f l).
Proof. intros HP. induction l; simpl; constructor; auto. Qed.

(** What the loop over the batch tags leaves under a key. *)
Lemma map_fold_copyTag (E tags : gmap string string) (k : string) :
  map_fold copyTag tags E !! k =
    match E !! k with
    | Some e => if decide (default "" (tags !! k) = "") then Some e else tags !! k
    | None => tags !! k
    end.
Proof.
  apply (map_fold_weak_ind (fun r E =>
    r !! k = match E !! k with
             | Some e => if decide (default "" (tags !! k) = "") then Some e else tags !! k
             | None => tags !! k
             end)).
  - by rewrite lookup_empty.
  - intros i x m r Hi IH. unfold copyTag.
    destruct (decide (i = k)) as [->|Hne].
    + rewrite lookup_insert_eq. rewrite Hi in IH. rewrite IH.
      destruct (decide (default "" (tags !! k) = "")); [by rewrite lookup_insert_eq|done].
    + rewrite lookup_insert_ne by done.
      destruct (decide (default "" (r !! i) = "")); [by rewrite lookup_insert_ne|done].
Qed.

End normalize_facts.

Section normalize_claims.
Context `{!client.Lib}.
Import influxdb.

(** C1, as amended.  For every batch, [NormalizeBatchPoints] returns a nil
    error and exactly as many points as the batch holds; the timestamp of
    each is [SetPrecision] of the point's own timestamp, or of the batch
    timestamp when the point has none, at the point's precision, or the
    batch's when the point has none.  No clock is read: when the batch
    timestamp is zero too, the point keeps the zero timestamp, which
    [SetPrecision] is handed. *)
Theorem NormalizeBatchPoints_timestamps (bp : BatchPoints) :
  snd (NormalizeBatchPoints bp) = None ∧
  length (fst (NormalizeBatchPoints bp)) = length (Points bp) ∧
  Forall2 (fun p q =>
      Timestamp q = client.SetPrecision (inheritedTimestamp bp p) (effectivePrecision bp p) ∧
      (time.IsZero (client.Timestamp p) = true ->
       time.IsZero (BatchTimestamp bp) = true ->
       Timestamp q = client.SetPrecision time.zero (effectivePrecision bp p)))
    (Points bp) (fst (NormalizeBatchPoints bp)).
Proof.
  rewrite NormalizeBatchPoints_map. simpl. split; [done|]. split.
  - by rewrite length_map.
  - apply Forall2_map_r_intro. intros p.
    assert (Hts : Timestamp (normalizePoint bp p) =
      client.SetPrecision (inheritedTimestamp bp p) (effectivePrecision bp p)).
    { unfold normalizePoint, inheritedTimestamp, effectivePrecision. simpl.
      f_equal. destruct (decide _) as [[Hp Hb]|Hn].
      - by rewrite (bool_decide_eq_true_2 _ Hp), (bool_decide_eq_false_2 _ Hb).
      - destruct (bool_decide_reflect (client.Precision p = "")); [|done].
        destruct (bool_decide_reflect (BatchPrecision bp = "")); [done|].
        exfalso. by apply Hn. }
    split; [done|]. intros Hp Hb. rewrite Hts. unfold inheritedTimestamp.
    rewrite Hp. unfold time.IsZero in Hb. apply bool_decide_eq_true_1 in Hb.
    by rewrite Hb.
Qed.

(** C2, as amended.  [NormalizeBatchPoints] validates nothing: for every
    batch it returns a nil error, and each returned point has the name and
    the values of the point it comes from, whether or not they are empty. *)
Theorem NormalizeBatchPoints_never_fails (bp : BatchPoints) :
  snd (NormalizeBatchPoints bp) = None ∧
  Forall2 (fun p q => Name q = client.Name p ∧ Values q = client.Values p)
    (Points bp) (fst (NormalizeBatchPoints bp)).
Proof.
  rewrite NormalizeBatchPoints_map. simpl. split; [done|].
  by apply Forall2_map_r_intro.
Qed.

(** C3, as amended.  For every batch whose envelope has a non-empty tag map
    [E], each normalised point has a tag map [m] in which: a key the point
    has with a non-empty value keeps that value; a key the point has with
    the empty string as value takes the envelope's value when the envelope
    has the key; a key the point lacks has the envelope's value.  A point
    without tags ends with exactly the envelope's tags. *)
Theorem NormalizeBatchPoints_tags (bp : BatchPoints) (E : gmap string string) :
  BatchTags bp = Some E -> E ≠ ∅ ->
  Forall2 (fun p q =>
      ∃ m, Tags q = Some m ∧
        (∀ k, m !! k =
              match default ∅ (client.Tags p) !! k with
              | Some v => if decide (v = "") then Some (default v (E !! k)) else Some v
              | None => E !! k
              end) ∧
        (default ∅ (client.Tags p) = ∅ -> m = E))
    (Points bp) (fst (NormalizeBatchPoints bp)).
Proof.
  intros HE Hne. rewrite NormalizeBatchPoints_map. simpl.
  apply Forall2_map_r_intro. intros p.
  assert (Hlen : bool_decide (len (Some E) > 0) = true).
  { apply bool_decide_eq_true_2. simpl.
    destruct (decide (size E = 0%nat)) as [H0|H0]; [|lia].
    by apply map_size_empty_iff in H0. }
  unfold normalizePoint, mergeTags. simpl. rewrite HE, Hlen. simpl.
  set (tags := match client.Tags p with Some t => t | None => ∅ end).
  assert (Htags : default ∅ (client.Tags p) = tags) by (by destruct (client.Tags p)).
  rewrite Htags. eexists. split; [done|]. split.
  - intros k. rewrite map_fold_copyTag.
    destruct (tags !! k) as [v|] eqn:Hk; destruct (E !! k) as [e|]; simpl;
      repeat case_decide; by simplify_eq.
  - intros ->. apply map_eq. intros k. rewrite map_fold_copyTag, lookup_empty. simpl.
    destruct (E !! k); [|done]. by case_decide.
Qed.

(** Folding the same envelope in twice changes nothing more, so it does not
    matter that the loop writes into the map the point shares with the
    batch's own copy of it. *)
Lemma mergeTags_idempotent (E tags : option (gmap string string)) :
  mergeTags E (mergeTags E tags) = mergeTags E tags.
Proof.
  unfold mergeTags. destruct (bool_decide (len E > 0)) eqn:Hlen; [|done].
  simpl. f_equal. apply map_eq. intros k. rewrite !map_fold_copyTag.
  destruct (default ∅ E !! k) as [e|] eqn:HE; [|done].
  destruct (default ∅ tags !! k) as [v|]; simpl;
    repeat (case_decide; simpl in *); by simplify_eq.
Qed.

End normalize_claims.

Section normalize_examples.
Import influxdb.
#[local] Existing Instance sample.clientLib.

Example stamped_timestamps :
  map Timestamp (fst (NormalizeBatchPoints sample.stamped)) = [time.Hour].
Proof. reflexivity. Qed.

Example epoch_scenario :
  client.EpochToTime 1700000000 "s" = inr (time.unixToInternal + 1700000000000000000).
Proof. reflexivity. Qed.

(** C1, the claim as written fails: the one point of the batch
    [sample.untimed] has no timestamp, the batch has none either, and the
    returned point has the zero timestamp, not the time of the call. *)
Lemma untimed_point_keeps_zero_timestamp :
  ∃ q, q ∈ fst (NormalizeBatchPoints sample.untimed) ∧
       time.IsZero (Timestamp q) = true.
Proof.
  exists (normalizePoint sample.untimed sample.cpu). split.
  - rewrite NormalizeBatchPoints_map. simpl. apply list_elem_of_here.
  - reflexivity.
Qed.

(** C2, the claim as written fails: the batch [sample.unvalidated] holds a
    point with an empty name and no values, and normalises without error. *)
Lemma blank_point_is_accepted :
  (∃ p, p ∈ Points sample.unvalidated ∧ client.Name p = "" ∧ len (client.Values p) = 0) ∧
  snd (NormalizeBatchPoints sample.unvalidated) = None.
Proof.
  split; [|reflexivity].
  exists sample.blank. split; [apply list_elem_of_here|done].
Qed.

(** C3, the claim as written fails: the point of [sample.overridden] has
    the key host, with the empty string as value, and the envelope's value
    replaces it. *)
Lemma empty_tag_value_is_overridden :
  ∃ p q, Points sample.overridden = [p] ∧
         fst (NormalizeBatchPoints sample.overridden) = [q] ∧
         client.Tags p ≫= (.!! "host") = Some "" ∧
         Tags q ≫= (.!! "host") = Some "a".
Proof.
  exists sample.emptyHost, (normalizePoint sample.overridden sample.emptyHost).
  split; [done|]. split; [by rewrite NormalizeBatchPoints_map|].
  split; vm_compute; reflexivity.
Qed.

(** C3 at the batch [sample.stamped]: its point has no tags and ends with
    the envelope's. *)
Lemma NormalizeBatchPoints_tags_stamped :
  BatchTags sample.stamped = Some {[ "host" := "a" ]} ∧
  ({[ "host" := "a" ]} : gmap string string) ≠ ∅ ∧
  ∃ q, fst (NormalizeBatchPoints sample.stamped) = [q] ∧
       Tags q = Some {[ "host" := "a" ]}.
Proof.
  assert (Hne : ({[ "host" := "a" ]} : gmap string string) ≠ ∅).
  { intros Heq. apply (f_equal (fun m => m !! "host")) in Heq. vm_compute in Heq.
    discriminate Heq. }
  split; [reflexivity|]. split; [exact Hne|].
  pose proof (NormalizeBatchPoints_tags sample.stamped _ eq_refl Hne) as H.
  rewrite NormalizeBatchPoints_map in H. simpl in H.
  apply Forall2_cons_1 in H. destruct H as [(m & Hm & _ & Heq) _].
  eexists. split; [by rewrite NormalizeBatchPoints_map|].
  rewrite Hm. f_equal. by apply Heq.
Defined.

End normalize_examples.

Section unmarshal_claims.
Context `{!client.Lib} `{!influxdb.JSON}.
Import influxdb.

(** C7.  For every body, [UnmarshalJSON] takes the epoch reading when
    there is one, whatever the other decoding would give; only without it,
    it decodes the timestamp as a time and rounds it to the precision.  In
    both cases the other five fields of the batch are those of the decoded
    struct, and when both decodings fail the batch is left as it was. *)
Theorem UnmarshalJSON_epoch_first (b : list Byte.byte) (bp : BatchPoints) :
  match epochReading b with
  | Some (e, t) =>
    ∃ bp', UnmarshalJSON b bp = (bp', None) ∧
           BatchTimestamp bp' = t ∧ batchFields bp' = envelopeFields e
  | None =>
    match Unmarshal_normal b with
    | inr n =>
      ∃ bp', UnmarshalJSON b bp = (bp', None) ∧
             BatchTimestamp bp' = client.SetPrecision (eTimestamp n) (ePrecision n) ∧
             batchFields bp' = envelopeFields n
    | inl err => UnmarshalJSON b bp = (bp, Some err)
    end
  end.
Proof.
  unfold epochReading, UnmarshalJSON, unmarshalEpoch.
  destruct (Unmarshal_epoch b) as [err|e].
  - destruct (Unmarshal_normal b) as [err'|n]; [done|]. by eexists.
  - destruct (eTimestamp e) as [n|].
    + destruct (client.EpochToTime n (ePrecision e)) as [msg|t].
      * destruct (Unmarshal_normal b) as [err'|n']; [done|]. by eexists.
      * by eexists.
    + by eexists.
Qed.

End unmarshal_claims.

(** * Properties of package httpd *)

Section http_facts.
Context {S : Type} `{!server.Ops S} `{!httpd.Lib} `{!client.Lib} `{!influxdb.JSON}.
Import http httpd.

Lemma prefix_append (s t : string) : String.prefix s (s +:+ t) = true.
Proof.
  induction s as [|a s IH]; simpl.
  - by destruct t.
  - destruct (Ascii.ascii_dec a a); [exact IH|done].
Qed.

Lemma httpError_responds (text : string) (pretty : bool) (code : Z) (σ : World S) :
  status (resp σ) = None -> bodyAllowedForStatus code = true ->
  responds (httpError text pretty code σ) code ∧
  untouched σ (httpError text pretty code σ) ∧
  wrote σ (httpError text pretty code σ)
    (MarshalResults {| server.ResultList := [];
                       server.ResultsErr := Some (influxdb.errorString text) |} pretty).
Proof.
  intros Hst Hbody. unfold responds, untouched, wrote. run. rewrite Hst, Hbody.
  split; [by eexists|]. done.
Qed.

Lemma writeError_responds (result : server.Result) (code : Z) (σ : World S) :
  status (resp σ) = None -> bodyAllowedForStatus code = true ->
  responds (writeError result code σ) code ∧
  untouched σ (writeError result code σ) ∧
  wrote σ (writeError result code σ) (EncodeResult result).
Proof.
  intros Hst Hbody. unfold responds, untouched, wrote. run. rewrite Hst, Hbody.
  split; [by eexists|]. done.
Qed.

(** When the scan of the body fails, so does [Decode], with the same
    error; an empty body is the case where the scan reports EOF. *)
Lemma Decode_readValue_error (b : list Byte.byte) (bp : influxdb.BatchPoints)
    (err : influxdb.error) :
  readValue b = inl err -> Decode b bp = (bp, Some err).
Proof. intros Hscan. unfold Decode. by rewrite Hscan. Qed.

End http_facts.

Section write_claims.
Context {S : Type} `{!server.Ops S} `{!httpd.Lib} `{!client.Lib} `{!influxdb.JSON}.
Import http httpd.

(** The three early exits of [serveWrite], as equations. *)
Lemma serveWrite_undecoded (requireAuthentication : bool) (user : option server.User)
    (σ : World S) (bp : influxdb.BatchPoints) (err : influxdb.error) :
  Decode (Body (req σ)) influxdb.emptyBatch = (bp, Some err) ->
  serveWrite requireAuthentication user σ =
    if bool_decide (influxdb.Error err = "EOF") then WriteHeader StatusOK σ
    else writeError {| server.Series := []; server.Err := Some err |}
                    StatusInternalServerError σ.
Proof.
  intros Hdec. unfold serveWrite.
  unfold mbind at 1, M_bind at 1, bind at 1, get at 1. rewrite Hdec.
  by destruct (bool_decide _).
Qed.

Lemma serveWrite_no_database (requireAuthentication : bool) (user : option server.User)
    (σ : World S) (bp : influxdb.BatchPoints) :
  Decode (Body (req σ)) influxdb.emptyBatch = (bp, None) ->
  influxdb.Database bp = "" ->
  serveWrite requireAuthentication user σ =
    writeError (errResult "database is required") StatusInternalServerError σ.
Proof.
  intros Hdec Hdb. unfold serveWrite.
  unfold mbind at 1, M_bind at 1, bind at 1, get at 1. rewrite Hdec.
  by rewrite (bool_decide_eq_true_2 _ Hdb).
Qed.

Lemma serveWrite_unknown_database (requireAuthentication : bool)
    (user : option server.User) (σ : World S) (bp : influxdb.BatchPoints) :
  Decode (Body (req σ)) influxdb.emptyBatch = (bp, None) ->
  influxdb.Database bp ≠ "" ->
  server.DatabaseExists (srv σ) (influxdb.Database bp) = false ->
  serveWrite requireAuthentication user σ =
    writeError (errResult ("database not found: " +:+ quote (influxdb.Database bp)))
               StatusNotFound σ.
Proof.
  intros Hdec Hdb Hex. unfold serveWrite.
  unfold mbind at 1, M_bind at 1, bind at 1, get at 1. rewrite Hdec.
  rewrite (bool_decide_eq_false_2 _ Hdb).
  unfold mbind at 1, M_bind at 1, bind at 1, get at 1. by rewrite Hex.
Qed.

(** C6.  For every write whose body decodes to a batch: with an empty
    database name the response is 500 and carries the error "database is
    required"; with the name of a database the server does not have it is
    404 and carries an error that starts with "database not found".  In
    both cases no method that changes the server is called, [WriteSeries]
    included, and the server is as before. *)
Theorem serveWrite_database_checks (requireAuthentication : bool)
    (user : option server.User) (σ : World S) (bp : influxdb.BatchPoints) :
  Decode (Body (req σ)) influxdb.emptyBatch = (bp, None) ->
  status (resp σ) = None ->
  let o := serveWrite requireAuthentication user σ in
  (influxdb.Database bp = "" ->
     responds o StatusInternalServerError ∧ untouched σ o ∧
     wrote σ o (EncodeResult (errResult "database is required"))) ∧
  (influxdb.Database bp ≠ "" ->
   server.DatabaseExists (srv σ) (influxdb.Database bp) = false ->
     responds o StatusNotFound ∧ untouched σ o ∧
     ∃ text, wrote σ o (EncodeResult (errResult text)) ∧
             String.prefix "database not found" text = true).
Proof.
  intros Hdec Hst o. subst o. split.
  - intros Hdb. rewrite (serveWrite_no_database _ _ _ _ Hdec Hdb).
    by apply writeError_responds.
  - intros Hdb Hex. rewrite (serveWrite_unknown_database _ _ _ _ Hdec Hdb Hex).
    destruct (writeError_responds
      (errResult ("database not found: " +:+ quote (influxdb.Database bp)))
      StatusNotFound σ Hst eq_refl) as (Hr & Hu & Hw).
    split; [done|]. split; [done|]. eexists. split; [exact Hw|].
    apply (prefix_append "database not found").
Qed.

(** C10.  For every write whose body fails to decode: when the text of the
    error is EOF, which is what the decoder reports on an empty body, the
    response is 200, nothing is written to its body and the server is not
    called; with any other error the response is 500 and carries the
    error, and the server is not called either. *)
Theorem serveWrite_decode_failure (requireAuthentication : bool)
    (user : option server.User) (σ : World S) (bp : influxdb.BatchPoints)
    (err : influxdb.error) :
  Decode (Body (req σ)) influxdb.emptyBatch = (bp, Some err) ->
  status (resp σ) = None ->
  let o := serveWrite requireAuthentication user σ in
  (influxdb.Error err = "EOF" ->
     responds o StatusOK ∧ untouched σ o ∧ body (resp (final o)) = body (resp σ)) ∧
  (influxdb.Error err ≠ "EOF" ->
     responds o StatusInternalServerError ∧ untouched σ o ∧
     wrote σ o (EncodeResult {| server.Series := []; server.Err := Some err |})).
Proof.
  intros Hdec Hst o. subst o. rewrite (serveWrite_undecoded _ _ _ _ _ Hdec).
  split; intros Herr.
  - rewrite (bool_decide_eq_true_2 _ Herr). unfold responds, untouched. run.
    rewrite Hst. split; [by eexists|done].
  - rewrite (bool_decide_eq_false_2 _ Herr). by apply writeError_responds.
Qed.

End write_claims.

Section authenticate_claims.
Context {S : Type} `{!server.Ops S} `{!httpd.Lib}.
Import http httpd.

Lemma parseCredentials_error_iff (r : Request) :
  noCredentials r <-> (parseCredentials r).2 ≠ None.
Proof.
  unfold noCredentials, parseCredentials. split.
  - intros [[Hu|Hp] Hb]; rewrite Hb.
    + by rewrite (bool_decide_eq_true_2 _ Hu).
    + rewrite (bool_decide_eq_true_2 _ Hp). by rewrite andb_false_r.
  - destruct (bool_decide_reflect (Get (URLQuery r) "u" = "")) as [Hu|Hu]; simpl.
    + destruct (BasicAuth r) as [[u p]|]; [done|]. intros _. split; [by left|done].
    + destruct (bool_decide_reflect (Get (URLQuery r) "p" = "")) as [Hp|Hp]; simpl; [|done].
      destruct (BasicAuth r) as [[u p]|]; [done|]. intros _. split; [by right|done].
Qed.

Lemma authenticate_rejects (inner : option server.User -> M S unit) (σ : World S) :
  server.UserCount (srv σ) > 0 -> noCredentials (req σ) ->
  authenticate inner true σ =
    httpError "unable to parse Basic Auth credentials" false StatusUnauthorized σ.
Proof.
  intros Hn Hc. unfold authenticate. simpl.
  unfold mbind at 1, M_bind at 1, bind at 1, get at 1.
  rewrite (bool_decide_eq_true_2 _ Hn).
  unfold mbind at 1, M_bind at 1, bind at 1, get at 1.
  assert (Hp : parseCredentials (req σ) =
    ("", "", Some (influxdb.errorString "unable to parse Basic Auth credentials"))).
  { unfold parseCredentials. destruct Hc as [[Hu|Hp] Hb]; rewrite Hb.
    - by rewrite (bool_decide_eq_true_2 _ Hu).
    - rewrite (bool_decide_eq_true_2 _ Hp). by rewrite andb_false_r. }
  by rewrite Hp.
Qed.

(** Each wrapper of the chain runs the handler it wraps in the same
    world, as far as authentication can tell, and keeps its status. *)
Lemma same_refl (σ : World S) : same σ σ.
Proof. by repeat split. Qed.

Lemma same_trans (σ σ1 σ2 : World S) : same σ σ1 -> same σ1 σ2 -> same σ σ2.
Proof.
  intros (a1 & a2 & a3 & a4 & a5) (b1 & b2 & b3 & b4 & b5).
  repeat split; congruence.
Qed.

Lemma around_compose (W1 W2 : M S unit -> M S unit) (σ : World S) :
  around W1 σ -> (∀ σ1, same σ σ1 -> around W2 σ1) -> around (fun h => W1 (W2 h)) σ.
Proof.
  intros (σ1 & k1 & Hs1 & Hk1 & HW1) Hnext.
  destruct (Hnext σ1 Hs1) as (σ2 & k2 & Hs2 & Hk2 & HW2).
  exists σ2, (fun o => k1 (k2 o)). split; [by eapply same_trans|]. split.
  - intros σ' c Hc. destruct (Hk2 σ' c Hc) as (σ'' & -> & Hc'). by apply Hk1.
  - intros h. by rewrite HW1, HW2.
Qed.

Lemma around_recovery (name : string) (σ : World S) :
  around (fun h => recovery h name) σ.
Proof.
  exists σ, (fun o => match o with
                      | Returned _ σ' => Returned tt σ'
                      | Panicked v σ' => Panicked v σ'
                      end).
  split; [apply same_refl|]. split.
  - intros σ' c Hc. by eexists.
  - intros h. unfold recovery. run. by destruct (h σ).
Qed.

Lemma around_logging (name : string) (σ : World S) :
  around (fun h => logging h name) σ.
Proof.
  exists σ, (fun o =>
    match o with
    | Returned _ σ' =>
      Returned tt (set_weblog (weblog σ' ++ [buildLogLine (resp σ') (req σ') (clock σ)]) σ')
    | Panicked v σ' => Panicked v σ'
    end).
  split; [apply same_refl|]. split.
  - intros σ' c Hc. by eexists.
  - intros h. unfold logging. run. by destruct (h σ).
Qed.

Lemma around_requestID (σ : World S) : around requestID σ.
Proof.
  unfold around, requestID, NewUUID.
  destruct (uuids σ) as [|uid rest] eqn:Hu;
    (eexists _, (fun o => o); split; [|split];
     [|intros σ' c Hc; by eexists|intros h; run; rewrite Hu; simpl; reflexivity]);
    by repeat split.
Qed.

Lemma around_cors (σ : World S) : Method (req σ) ≠ "OPTIONS" -> around cors σ.
Proof.
  intros Hm. unfold around, cors.
  destruct (negb (bool_decide (HeaderGet (Header (req σ)) "Origin" = ""))) eqn:Ho;
    (eexists _, (fun o => o); split; [|split];
     [|intros σ' c Hc; by eexists
      |intros h; run; rewrite Ho, (bool_decide_eq_false_2 _ Hm); simpl; reflexivity]);
    by repeat split.
Qed.

Lemma around_versionHeader (version : string) (σ : World S) :
  around (fun h => versionHeader h version) σ.
Proof.
  eexists _, (fun o => o). split; [|split];
    [|intros σ' c Hc; by eexists|intros h; unfold versionHeader; run; reflexivity].
  by repeat split.
Qed.

Lemma around_gzipFilter (σ : World S) : around gzipFilter σ.
Proof.
  unfold around, gzipFilter.
  destruct (negb (Contains (HeaderGet (Header (req σ)) "Accept-Encoding") "gzip")) eqn:Hg.
  - exists σ, (fun o => o). split; [apply same_refl|]. split.
    + intros σ' c Hc. by eexists.
    + intros h. run. by rewrite Hg.
  - eexists _, (fun o => defer (gzClose (gzip (resp σ))) (fun _ => o) σ).
    split; [|split];
      [|intros σ' c Hc; unfold defer, gzClose, set_gzip; run; rewrite Hc; by eexists
       |intros h; unfold defer; run; rewrite Hg; simpl; reflexivity].
    by repeat split.
Qed.

Lemma around_chain (name version : string) (σ : World S) :
  Method (req σ) ≠ "OPTIONS" -> around (fun h => chain h name version) σ.
Proof.
  intros Hm. unfold chain.
  apply (around_compose (fun h => recovery h name)); [apply around_recovery|].
  intros σ1 Hs1.
  apply (around_compose (fun h => logging h name)); [apply around_logging|].
  intros σ2 Hs2.
  apply (around_compose requestID); [apply around_requestID|].
  intros σ3 Hs3.
  apply (around_compose cors).
  { apply around_cors. destruct Hs1 as (_ & _ & _ & Hm1 & _).
    destruct Hs2 as (_ & _ & _ & Hm2 & _). destruct Hs3 as (_ & _ & _ & Hm3 & _).
    congruence. }
  intros σ4 Hs4.
  apply (around_compose (fun h => versionHeader h version)); [apply around_versionHeader|].
  intros σ5 Hs5. apply around_gzipFilter.
Qed.

(** C5.  With authentication required: when the server has no user, the
    inner handler runs with a nil user and the request's credentials are not
    looked at; when it has one or more and the request has no usable
    credentials, the response is 401 and the outcome is the same whatever
    the inner handler is, so it is not run.  Both hold of [authenticate]
    where it starts and of the whole chain of a route that has it, for a
    request whose method is not OPTIONS. *)
Theorem authenticate_required (inner : option server.User -> M S unit)
    (name version : string) (σ : World S) :
  (server.UserCount (srv σ) = 0 ->
     authenticate inner true σ = inner None σ ∧
     (Method (req σ) ≠ "OPTIONS" ->
      chain (authenticate inner true) name version σ = chain (inner None) name version σ)) ∧
  (server.UserCount (srv σ) > 0 -> noCredentials (req σ) -> status (resp σ) = None ->
     (responds (authenticate inner true σ) StatusUnauthorized ∧
      untouched σ (authenticate inner true σ) ∧
      ∀ inner', authenticate inner' true σ = authenticate inner true σ) ∧
     (Method (req σ) ≠ "OPTIONS" ->
      responds (chain (authenticate inner true) name version σ) StatusUnauthorized ∧
      ∀ inner', chain (authenticate inner' true) name version σ
                = chain (authenticate inner true) name version σ)).
Proof.
  assert (Hzero : ∀ σ0 : World S, server.UserCount (srv σ0) = 0 ->
                    authenticate inner true σ0 = inner None σ0).
  { intros σ0 Hn. unfold authenticate. simpl.
    unfold mbind at 1, M_bind at 1, bind at 1, get at 1.
    rewrite Hn. by rewrite bool_decide_eq_false_2 by lia. }
  split.
  - intros Hn. split; [by apply Hzero|]. intros Hm.
    destruct (around_chain name version σ Hm) as (σ1 & k & Hs & _ & HW).
    destruct Hs as (Hsrv & _). rewrite !HW. f_equal. apply Hzero. by rewrite Hsrv.
  - intros Hn Hc Hst. split.
    + rewrite (authenticate_rejects inner σ Hn Hc).
      destruct (httpError_responds "unable to parse Basic Auth credentials" false
                  StatusUnauthorized σ Hst eq_refl) as (Hr & Hu & _).
      split; [done|]. split; [done|]. intros inner'.
      by rewrite (authenticate_rejects inner' σ Hn Hc).
    + intros Hm.
      destruct (around_chain name version σ Hm) as (σ1 & k & Hs & Hk & HW).
      destruct Hs as (Hsrv & Hq & Hb & _ & Hst1).
      assert (Hrej : ∀ hf, authenticate hf true σ1 =
        httpError "unable to parse Basic Auth credentials" false StatusUnauthorized σ1).
      { intros hf. apply authenticate_rejects.
        - by rewrite Hsrv.
        - unfold noCredentials in *. by rewrite Hq, Hb. }
      split.
      * rewrite HW, Hrej.
        destruct (httpError_responds "unable to parse Basic Auth credentials" false
          StatusUnauthorized σ1) as ((σ' & -> & Hc') & _); [congruence|done|].
        by apply Hk.
      * intros inner'. by rewrite !HW, !Hrej.
Qed.

End authenticate_claims.

Section data_node_claims.
Context {S : Type} `{!server.Ops S} `{!httpd.Lib}.
Import http httpd.

(** C8.  For every request to create a data node whose body decodes: a URL
    that does not parse gives 400; [ErrDataNodeExists] from the server
    gives 409; when the node is created and found again, a failure to
    create its replica on the broker gives 502, and otherwise the response
    is 201 and carries the node's id and URL. *)
Theorem serveCreateDataNode_status (σ : World S) (n : dataNodeJSON) :
  Decode_dataNodeJSON (Body (req σ)) = inr n ->
  status (resp σ) = None ->
  let o := serveCreateDataNode σ in
  (∀ err, url_Parse (JSON_URL n) = inl err -> responds o StatusBadRequest) ∧
  (∀ u s', url_Parse (JSON_URL n) = inr u ->
     server.CreateDataNode (srv σ) u = (s', Some (influxdb.Sentinel influxdb.ErrDataNodeExists)) ->
     responds o StatusConflict) ∧
  (∀ u s' node s'' err, url_Parse (JSON_URL n) = inr u ->
     server.CreateDataNode (srv σ) u = (s', None) ->
     server.DataNodeByURL s' u = Some node ->
     server.CreateReplica s' (server.ID node) = (s'', Some err) ->
     responds o StatusBadGateway) ∧
  (∀ u s' node s'', url_Parse (JSON_URL n) = inr u ->
     server.CreateDataNode (srv σ) u = (s', None) ->
     server.DataNodeByURL s' u = Some node ->
     server.CreateReplica s' (server.ID node) = (s'', None) ->
     responds o StatusCreated ∧
     wrote σ o (EncodeDataNode
                  {| JSON_ID := server.ID node;
                     JSON_URL := server.URL_String (server.NodeURL node) |})).
Proof.
  intros Hdec Hst o. subst o. unfold responds, wrote, serveCreateDataNode.
  split; [|split; [|split]].
  - intros err Hp. run. rewrite Hdec, Hp. simpl. rewrite Hst. by eexists.
  - intros u s' Hp Hc. run. rewrite Hdec, Hp, Hc. simpl. rewrite Hst. by eexists.
  - intros u s' node s'' err Hp Hc Hf Hr. run. rewrite Hdec, Hp, Hc. simpl.
    rewrite Hf. simpl. rewrite Hr. simpl. rewrite Hst. by eexists.
  - intros u s' node s'' Hp Hc Hf Hr. run. rewrite Hdec, Hp, Hc. simpl.
    rewrite Hf. simpl. rewrite Hr. simpl. rewrite Hst. split; [by eexists|done].
Qed.

End data_node_claims.

Section chain_claims.
Context {S : Type} `{!server.Ops S} `{!httpd.Lib} `{!client.Lib} `{!influxdb.JSON}.
Import http httpd.

Lemma NewHandler_mux (requireAuthentication : bool) (version : string) :
  mux (NewHandler requireAuthentication version) =
    map (fun r => {| muxMethod := method r; muxPattern := pattern r;
                     muxHandler := chain (innermost requireAuthentication r) (name r) version |})
        (theRoutes requireAuthentication).
Proof. reflexivity. Qed.

Lemma cors_options (inner : M S unit) (σ : World S) :
  Method (req σ) = "OPTIONS" -> cors inner σ = cors (ret tt) σ.
Proof.
  intros Hm. unfold cors. run. rewrite Hm. simpl.
  by destruct (negb _).
Qed.

Lemma recovery_returns (inner : M S unit) (name : string) (σ σ' : World S) :
  inner σ = Returned tt σ' -> recovery inner name σ = Returned tt σ'.
Proof. intros Hin. unfold recovery. run. by rewrite Hin. Qed.

Lemma recovery_final (inner : M S unit) (name : string) (σ : World S) :
  final (recovery inner name σ) = final (inner σ).
Proof. unfold recovery. run. by destruct (inner σ) as [[] σ'|v σ']. Qed.

(** C9, as amended.  The mux has one entry per route, in the order of the
    routes, under the route's method and pattern.  For a route whose
    function takes a user (query, write, process_continuous_queries) the
    handler is recovery, logging, request id, CORS, version header and
    gzip, outermost first, around [authenticate] around the function; for
    the other six routes the same six wrappers are around the function
    itself, with no authentication.  For every request with the method
    OPTIONS, [cors] returns what it returns around any other handler: it
    does not run the one it wraps, and writes neither a status nor a
    body. *)
Theorem NewHandler_chain (requireAuthentication : bool) (version : string) :
  let h := NewHandler requireAuthentication version in
  Forall2 (fun r e =>
      muxMethod e = method r ∧ muxPattern e = pattern r ∧
      match handler r with
      | WithUser hf =>
        muxHandler e = chain (authenticate hf requireAuthentication) (name r) version
      | Plain hf => muxHandler e = chain hf (name r) version
      end)
    (routes h) (mux h) ∧
  map name (List.filter takesUser (routes h)) =
    ["query"; "write"; "process_continuous_queries"] ∧
  map name (List.filter (fun r => negb (takesUser r)) (routes h)) =
    ["data_nodes_index"; "data_nodes_create"; "data_nodes_delete"; "metastore";
     "status"; "ping"] ∧
  ∀ (inner : M S unit) (σ : World S), Method (req σ) = "OPTIONS" ->
    cors inner σ = cors (ret tt) σ ∧
    ∃ σ', cors inner σ = Returned tt σ' ∧
          status (resp σ') = status (resp σ) ∧ body (resp σ') = body (resp σ).
Proof.
  intros h. subst h. split; [|split; [done|split; [done|]]].
  - rewrite NewHandler_mux. simpl. repeat constructor.
  - intros inner σ Hm. split; [by apply cors_options|].
    unfold cors. run. rewrite Hm. simpl.
    destruct (negb _); by eexists.
Qed.

(** C4, a slip of the code.  [recovery] is the outermost wrapper of every
    entry of the mux, but it calls [recover] in its own body, after the call
    of the inner handler, and not in a deferred function: it catches
    nothing, and is the handler it wraps.  A panic of the inner handler
    leaves [recovery] with the same value, in the world the inner handler
    left: no line is printed and no status, 500 or other, is set. *)
Theorem recovery_catches_nothing (requireAuthentication : bool) (version : string) :
  (∀ e, e ∈ mux (NewHandler requireAuthentication version) ->
        ∃ inner name, muxHandler e = recovery inner name) ∧
  (∀ (inner : M S unit) name σ, recovery inner name σ = inner σ) ∧
  (∀ (inner : M S unit) name v σ σ',
     inner σ = Panicked v σ' ->
     recovery inner name σ = Panicked v σ' ∧
     weblog (final (recovery inner name σ)) = weblog σ' ∧
     resp (final (recovery inner name σ)) = resp σ').
Proof.
  assert (Hid : ∀ (inner : M S unit) name σ, recovery inner name σ = inner σ).
  { intros inner name σ. unfold recovery. run. by destruct (inner σ) as [[] σ'|v σ']. }
  split; [|split].
  - intros e He. rewrite NewHandler_mux in He.
    apply list_elem_of_fmap in He. destruct He as (r & -> & _). simpl.
    unfold chain. by eexists _, _.
  - exact Hid.
  - intros inner name v σ σ' Hin. by rewrite Hid, Hin.
Qed.

End chain_claims.

(** * The handlers on concrete requests *)

Section http_examples.
Import http httpd sample.
#[local] Existing Instance sample.clientLib.
#[local] Existing Instance sample.json.
#[local] Existing Instance sample.httpLib.
#[local] Existing Instance sample.serverOps.

(** C4 at a handler that panics: [recovery] around it panics with the same
    value; the world is as at the arrival of the request, with no line
    printed and no status set. *)
Lemma recovery_lets_panic_through :
  recovery (panic "boom") "ping" anonymousGet = Panicked "boom" anonymousGet ∧
  weblog anonymousGet = [] ∧ status (resp anonymousGet) = None.
Proof.
  split; [|done].
  destruct (recovery_catches_nothing (S:=state) true "0.9") as (_ & _ & Hpanic).
  by destruct (Hpanic (panic "boom") "ping" "boom" anonymousGet anonymousGet eq_refl).
Defined.

(** The same through the whole chain of a route: with authentication
    required and no user yet, a write to an existing database calls
    [Authorize] on the nil user, which panics in the sample server, and
    the panic leaves the route's handler. *)
Example write_route_panics :
  ∃ e σ', e ∈ mux (NewHandler true "0.9") ∧ muxPattern e = "/write" ∧
    muxHandler e (arrival (serverWith 0 true) (request "POST" (bytesOf (object "database" "db"))))
      = Panicked nilDereference σ' ∧
    weblog σ' = [] ∧ status (resp σ') = None.
Proof.
  eexists _, _. split; [|split; [|split; [|split]]].
  - rewrite NewHandler_mux. simpl. apply list_elem_of_further, list_elem_of_here.
  - reflexivity.
  - vm_compute. reflexivity.
  - reflexivity.
  - reflexivity.
Qed.

(** C5 at two servers: without users the inner handler runs with a nil
    user; with one user and no credentials the response is 401. *)
Lemma authenticate_required_sample :
  authenticate (fun _ => servePing) true (arrival (serverWith 0 true) (request "GET" []))
    = servePing (arrival (serverWith 0 true) (request "GET" [])) ∧
  server.UserCount (srv anonymousGet) > 0 ∧ noCredentials (req anonymousGet) ∧
  status (resp anonymousGet) = None ∧ Method (req anonymousGet) ≠ "OPTIONS" ∧
  responds (authenticate (fun _ => servePing) true anonymousGet) StatusUnauthorized ∧
  responds (chain (authenticate (fun _ => servePing) true) "query" "0.9" anonymousGet)
    StatusUnauthorized.
Proof.
  split.
  - apply (authenticate_required (fun _ => servePing) "query" "0.9"
             (arrival (serverWith 0 true) (request "GET" []))). reflexivity.
  - assert (Hn : server.UserCount (srv anonymousGet) > 0) by reflexivity.
    assert (Hc : noCredentials (req anonymousGet)) by (split; [by left|done]).
    assert (Hm : Method (req anonymousGet) ≠ "OPTIONS") by discriminate.
    split; [exact Hn|]. split; [exact Hc|]. split; [reflexivity|]. split; [exact Hm|].
    destruct (authenticate_required (fun _ => servePing) "query" "0.9" anonymousGet)
      as (_ & Hpos).
    destruct (Hpos Hn Hc eq_refl) as ((Hr & _) & Hchain).
    split; [exact Hr|]. by apply Hchain.
Defined.

(** C6 at two bodies: [{}] names no database, and the other one names the
    database nope, which the server does not have. *)
Lemma serveWrite_database_checks_sample :
  let σ1 := arrival (serverWith 1 true) (request "POST" (bytesOf "{}")) in
  let σ2 := arrival (serverWith 1 true)
              (request "POST" (bytesOf (object "database" "nope"))) in
  (responds (serveWrite true None σ1) StatusInternalServerError ∧
   untouched σ1 (serveWrite true None σ1) ∧
   wrote σ1 (serveWrite true None σ1) (EncodeResult (errResult "database is required"))) ∧
  (responds (serveWrite true None σ2) StatusNotFound ∧
   untouched σ2 (serveWrite true None σ2) ∧
   ∃ text, wrote σ2 (serveWrite true None σ2) (EncodeResult (errResult text)) ∧
           String.prefix "database not found" text = true).
Proof.
  intros σ1 σ2. split.
  - apply (serveWrite_database_checks true None σ1 influxdb.emptyBatch);
      reflexivity.
  - apply (serveWrite_database_checks true None σ2
             {| influxdb.Points := []; influxdb.Database := "nope";
                influxdb.RetentionPolicy := ""; influxdb.BatchTags := None;
                influxdb.BatchTimestamp := time.zero; influxdb.BatchPrecision := "" |});
      [reflexivity|reflexivity|discriminate|reflexivity].
Defined.

(** C10 at two bodies: the empty one, and one that is not JSON. *)
Lemma serveWrite_decode_failure_sample :
  let σ1 := arrival (serverWith 1 true) (request "POST" []) in
  let σ2 := arrival (serverWith 1 true) (request "POST" (bytesOf "garbage")) in
  (responds (serveWrite true None σ1) StatusOK ∧
   untouched σ1 (serveWrite true None σ1) ∧
   body (resp (final (serveWrite true None σ1))) = []) ∧
  (responds (serveWrite true None σ2) StatusInternalServerError ∧
   untouched σ2 (serveWrite true None σ2) ∧
   wrote σ2 (serveWrite true None σ2)
     (EncodeResult {| server.Series := []; server.Err := Some syntaxError |})).
Proof.
  intros σ1 σ2. split.
  - apply (serveWrite_decode_failure true None σ1 influxdb.emptyBatch
             (influxdb.errorString "EOF")); reflexivity.
  - apply (serveWrite_decode_failure true None σ2 influxdb.emptyBatch syntaxError);
      [reflexivity|reflexivity|discriminate].
Defined.

(** C8 at four requests: a first creation (201, the body has the id 1), a
    repeated one (409), one while the broker is down (502), and one whose
    URL has a broken escape (400). *)
Lemma serveCreateDataNode_status_sample :
  let σ1 := arrival (serverWith 1 true) (request "POST" nodeA) in
  let σ2 := arrival (serverWithA true) (request "POST" nodeA) in
  let σ3 := arrival (serverWith 1 false) (request "POST" nodeA) in
  let σ4 := arrival (serverWith 1 true) (request "POST" (bytesOf (object "url" "http://a%zz"))) in
  (responds (serveCreateDataNode σ1) StatusCreated ∧
   wrote σ1 (serveCreateDataNode σ1)
     (EncodeDataNode {| JSON_ID := 1; JSON_URL := "http://a:8086" |})) ∧
  responds (serveCreateDataNode σ2) StatusConflict ∧
  responds (serveCreateDataNode σ3) StatusBadGateway ∧
  responds (serveCreateDataNode σ4) StatusBadRequest.
Proof.
  intros σ1 σ2 σ3 σ4.
  assert (Hd : ∀ s, Decode_dataNodeJSON (Body (req (arrival s (request "POST" nodeA))))
                    = inr {| JSON_ID := 0; JSON_URL := "http://a:8086" |})
    by reflexivity.
  assert (Hd4 : Decode_dataNodeJSON (Body (req σ4))
                = inr {| JSON_ID := 0; JSON_URL := "http://a%zz" |}) by reflexivity.
  assert (Hs : ∀ s r, status (resp (arrival s r)) = None) by reflexivity.
  split; [|split; [|split]].
  - destruct (serveCreateDataNode_status σ1 _ (Hd _) (Hs _ _)) as (_ & _ & _ & H201).
    apply (H201 urlA (serverWithA true) created (serverWithA true)); reflexivity.
  - destruct (serveCreateDataNode_status σ2 _ (Hd _) (Hs _ _)) as (_ & H409 & _).
    apply (H409 urlA (serverWithA true)); reflexivity.
  - destruct (serveCreateDataNode_status σ3 _ (Hd _) (Hs _ _)) as (_ & _ & H502 & _).
    apply (H502 urlA (serverWithA false) created (serverWithA false)
             (influxdb.errorString "broker unavailable")); reflexivity.
  - destruct (serveCreateDataNode_status σ4 _ Hd4 (Hs _ _)) as (H400 & _).
    apply (H400 (influxdb.errorString "invalid URL escape")). reflexivity.
Defined.

(** C9, the claim as written fails: the route ping is in the mux, and its
    handler is not the six wrappers around [authenticate] around any
    function.  With authentication required, one user and no credentials,
    the route answers 204, and any authenticated chain answers 401. *)
Lemma ping_is_not_authenticated :
  ∃ e, e ∈ mux (NewHandler true "0.9") ∧ muxMethod e = "GET" ∧ muxPattern e = "/ping" ∧
       status (resp (final (muxHandler e anonymousGet))) = Some StatusNoContent ∧
       ∀ hf : option server.User -> M state unit,
         status (resp (final (chain (authenticate hf true) "ping" "0.9" anonymousGet)))
           = Some StatusUnauthorized ∧
         muxHandler e ≠ chain (authenticate hf true) "ping" "0.9".
Proof.
  exists {| muxMethod := "GET"; muxPattern := "/ping";
            muxHandler := chain servePing "ping" "0.9" |}.
  split; [|split; [done|split; [done|split; [by vm_compute|]]]].
  - rewrite NewHandler_mux. simpl. do 7 apply list_elem_of_further.
    apply list_elem_of_here.
  - intros hf.
    assert (H401 : status (resp (final (chain (authenticate hf true) "ping" "0.9" anonymousGet)))
                   = Some StatusUnauthorized) by (by vm_compute).
    split; [exact H401|]. simpl. intros Heq. rewrite <- Heq in H401.
    vm_compute in H401. discriminate H401.
Qed.

(** The same request to the route query, which takes a user, is answered
    401. *)
Example query_is_authenticated :
  ∃ e, e ∈ mux (NewHandler true "0.9") ∧ muxPattern e = "/query" ∧
       responds (muxHandler e anonymousGet) StatusUnauthorized.
Proof.
  eexists. split; [|split].
  - rewrite NewHandler_mux. simpl. apply list_elem_of_here.
  - reflexivity.
  - vm_compute. by eexists.
Qed.

(** A preflight request: [cors] answers it without running the handler
    it wraps, here one that would panic. *)
Example cors_preflight :
  cors (panic "not run") (arrival (serverWith 1 true) (request "OPTIONS" []))
    = Returned tt (arrival (serverWith 1 true) (request "OPTIONS" [])).
Proof. vm_compute. reflexivity. Qed.

(** A request that accepts gzip, to the route status: what the handler
    writes reaches the connection through the gzip writer, and the stream is
    closed after it. *)
Example status_gzipped :
  Contains "deflate, gzip" "gzip" = true ∧
  ∃ e σ', e ∈ mux (NewHandler true "0.9") ∧ muxPattern e = "/status" ∧
    muxHandler e (arrival (serverWith 1 true)
                    (set_Header (Set_ "Accept-Encoding" "deflate, gzip" ∅) (request "GET" [])))
      = Returned tt σ' ∧
    status (resp σ') = Some StatusOK ∧
    body (resp σ') = [Gzipped (Data (MarshalStatus 1 0 false)); GzipEnd] ∧
    HeaderGet (header (resp σ')) "Content-Encoding" = "gzip" ∧
    HeaderGet (header (resp σ')) "X-Influxdb-Version" = "0.9" ∧
    HeaderGet (header (resp σ')) "Request-Id" = "6ba7b810-9dad-11d1-80b4-00c04fd430c8" ∧
    weblog σ' = ["GET 200"].
Proof.
  split; [reflexivity|]. eexists _, _. split; [|split; [|split]].
  - rewrite NewHandler_mux. simpl. do 6 apply list_elem_of_further.
    apply list_elem_of_here.
  - reflexivity.
  - vm_compute. reflexivity.
  - repeat split; vm_compute; reflexivity.
Qed.

(** C7 on three bodies of the sample decoders: the first has an epoch
    reading; the second has none and decodes as a time string; the third
    fails both ways and leaves the batch as it was. *)
Example UnmarshalJSON_samples :
  influxdb.UnmarshalJSON (bytesOf (object "database" "db")) sample.stamped
    = ({| influxdb.Points := []; influxdb.Database := "db";
          influxdb.RetentionPolicy := ""; influxdb.BatchTags := None;
          influxdb.BatchTimestamp := time.zero; influxdb.BatchPrecision := "" |}, None) ∧
  (influxdb.UnmarshalJSON (bytesOf (object "timestamp" "0001-01-01T00:00:01Z")) sample.stamped).1
    = {| influxdb.Points := []; influxdb.Database := "";
         influxdb.RetentionPolicy := ""; influxdb.BatchTags := None;
         influxdb.BatchTimestamp := time.Second; influxdb.BatchPrecision := "" |} ∧
  influxdb.UnmarshalJSON (bytesOf "garbage") sample.stamped
    = (sample.stamped, Some syntaxError).
Proof. repeat split; vm_compute; reflexivity. Qed.

End http_examples.

(** * Further properties of package influxdb *)

Section influxdb_extras.
Context `{!client.Lib} `{!influxdb.JSON}.
Import influxdb.

(** X1.  Points are normalised one by one and in order: normalising a batch
    whose points are [ps] followed by [qs] gives the points of [ps]
    normalised, followed by those of [qs] normalised, under the same
    envelope. *)
Theorem NormalizeBatchPoints_app (bp : BatchPoints) (ps qs : list client.Point) :
  (NormalizeBatchPoints (withPoints bp (ps ++ qs))).1 =
    (NormalizeBatchPoints (withPoints bp ps)).1 ++ (NormalizeBatchPoints (withPoints bp qs)).1.
Proof.
  rewrite !NormalizeBatchPoints_map. simpl. by rewrite map_app.
Qed.

(** X2.  The batch timestamp and the batch precision are defaults only:
    when every point has a timestamp and a precision of its own, a batch
    with any other timestamp and precision normalises to the same points. *)
Theorem NormalizeBatchPoints_defaults (bp : BatchPoints) (t : time.Time) (precision : string) :
  Forall (fun p => time.IsZero (client.Timestamp p) = false ∧ client.Precision p ≠ "")
         (Points bp) ->
  NormalizeBatchPoints (restamped bp t precision) = NormalizeBatchPoints bp.
Proof.
  intros Hall. rewrite !NormalizeBatchPoints_map. simpl. f_equal.
  induction Hall as [|p ps [Hts Hp] _ IH]; [done|]. simpl. rewrite IH. f_equal.
  unfold normalizePoint. simpl. rewrite Hts.
  by rewrite (bool_decide_eq_false_2 _ Hp).
Qed.

(** X3.  Folding the envelope's tags into a point's never drops a key and
    never invents one: with an empty (or nil) envelope map the point's map
    is returned as it is, nil included; otherwise the keys of the result are
    those of the point together with those of the envelope, and every value
    is the point's or the envelope's value for its key. *)
Theorem mergeTags_domain (E tags : option (gmap string string)) :
  (len E = 0 -> mergeTags E tags = tags) ∧
  (len E > 0 ->
     ∃ m, mergeTags E tags = Some m ∧
          dom m = dom (default ∅ tags) ∪ dom (default ∅ E) ∧
          ∀ k v, m !! k = Some v ->
                 default ∅ tags !! k = Some v ∨ default ∅ E !! k = Some v).
Proof.
  unfold mergeTags. split; intros HE.
  - by rewrite bool_decide_eq_false_2 by lia.
  - rewrite (bool_decide_eq_true_2 _ HE).
    assert (Ht : match tags with Some t => t | None => ∅ end = default ∅ tags)
      by (by destruct tags).
    rewrite Ht. eexists. split; [done|]. split.
    + apply set_eq. intros k. rewrite elem_of_union, !elem_of_dom.
      rewrite map_fold_copyTag.
      destruct (default ∅ E !! k) as [e|], (default ∅ tags !! k) as [v|]; simpl;
        repeat case_decide; split; intros Hk; try done; try (by left); try (by right);
        by destruct Hk as [[? ?]|[? ?]].
    + intros k v. rewrite map_fold_copyTag.
      destruct (default ∅ E !! k) as [e|]; [|by left].
      case_decide; [by right|by left].
Qed.

(** X4.  [UnmarshalJSON] either replaces the whole batch or leaves it alone:
    on success the result does not depend on what the batch held before; on
    failure the batch is unchanged, and the error returned is the one of
    the decoding with a time-string timestamp, never the one of the epoch
    attempt. *)
Theorem UnmarshalJSON_receiver (b : list Byte.byte) (bp bp' : BatchPoints) :
  match (UnmarshalJSON b bp).2 with
  | None => UnmarshalJSON b bp' = UnmarshalJSON b bp
  | Some err =>
    (UnmarshalJSON b bp).1 = bp ∧ UnmarshalJSON b bp' = (bp', Some err) ∧
    Unmarshal_normal b = inl err
  end.
Proof.
  unfold UnmarshalJSON, unmarshalEpoch.
  destruct (Unmarshal_epoch b) as [err|e].
  - by destruct (Unmarshal_normal b).
  - destruct (eTimestamp e) as [n|].
    + destruct (client.EpochToTime n (ePrecision e)); [|done].
      by destruct (Unmarshal_normal b).
    + done.
Qed.

(** X5.  No two of the package's error values have the same text. *)
Theorem sentinel_text_injective (s1 s2 : sentinel) :
  sentinel_text s1 = sentinel_text s2 -> s1 = s2.
Proof.
  destruct s1, s2; intros Heq; try reflexivity; discriminate Heq.
Qed.

End influxdb_extras.

(** * Further properties of package httpd *)

Section credentials_extras.
Context {S : Type} {O : server.Ops S} `{!httpd.Lib}.
Import http httpd.

(** Reading a header after setting one: the keys are compared in their
    canonical form. *)
Lemma HeaderGet_Set (k k' v : string) (h : Values) :
  HeaderGet (Set_ k v h) k' =
    if decide (CanonicalMIMEHeaderKey k = CanonicalMIMEHeaderKey k') then v
    else HeaderGet h k'.
Proof.
  unfold HeaderGet, Get, Set_, Values. case_decide as Hk.
  - by rewrite Hk, lookup_insert_eq.
  - by rewrite lookup_insert_ne.
Qed.

(** X6.  The URL parameters u and p are used when both are non-empty, even
    if the request also has Basic credentials; when either is empty the
    Basic credentials are used, and the URL parameter that was given is
    dropped; without Basic credentials either, the result is an error. *)
Theorem parseCredentials_precedence (r : Request) :
  let u := Get (URLQuery r) "u" in
  let p := Get (URLQuery r) "p" in
  (u ≠ "" -> p ≠ "" -> parseCredentials r = (u, p, None)) ∧
  (u = "" ∨ p = "" ->
     match BasicAuth r with
     | Some (bu, bp) => parseCredentials r = (bu, bp, None)
     | None => ∃ err, parseCredentials r = ("", "", Some err)
     end).
Proof.
  intros u p. subst u p. unfold parseCredentials. split.
  - intros Hu Hp.
    by rewrite (bool_decide_eq_false_2 _ Hu), (bool_decide_eq_false_2 _ Hp).
  - intros Hup.
    assert (Hb : negb (bool_decide (Get (URLQuery r) "u" = ""))
                 && negb (bool_decide (Get (URLQuery r) "p" = "")) = false).
    { destruct Hup as [Hu|Hp].
      - by rewrite (bool_decide_eq_true_2 _ Hu).
      - rewrite (bool_decide_eq_true_2 _ Hp). by rewrite andb_false_r. }
    rewrite Hb. destruct (BasicAuth r) as [[bu bp]|]; [done|by eexists].
Qed.

Lemma authenticate_unfold (O' : server.Ops S) (inner : option server.User -> M S unit)
    (σ : World S) (username password : string) :
  @server.UserCount S O' (srv σ) > 0 ->
  parseCredentials (req σ) = (username, password, None) ->
  @authenticate S O' inner true σ =
    if bool_decide (username = "") then
      httpError "username required" false StatusUnauthorized σ
    else
      match @server.Authenticate S O' (srv σ) username password with
      | inl err => httpError (influxdb.Error err) false StatusUnauthorized σ
      | inr user => inner (Some user) σ
      end.
Proof.
  intros Hn Hp. unfold authenticate. simpl.
  unfold mbind at 1, M_bind at 1, bind at 1, get at 1.
  rewrite (bool_decide_eq_true_2 _ Hn).
  unfold mbind at 1, M_bind at 1, bind at 1, get at 1. rewrite Hp.
  destruct (bool_decide _); [done|].
  unfold mbind at 1, M_bind at 1, bind at 1, get at 1.
  by destruct (server.Authenticate _ _ _).
Qed.

(** X7.  With authentication required, a server that has users and a
    request whose credentials parse.  An empty user name is answered by
    [httpError] with "username required" and 401, and the server's
    [Authenticate] is not consulted: the outcome is the same whatever
    [Authenticate] the server has.  Otherwise [Authenticate] is consulted
    at this user name and password and nowhere else; its error gives 401
    with the error's text, and on success the inner handler runs, in the
    world as it was, with exactly the user returned.  In the two 401 cases
    the inner handler is not run and the server is left alone. *)
Theorem authenticate_credentials (inner : option server.User -> M S unit) (σ : World S)
    (username password : string) :
  server.UserCount (srv σ) > 0 ->
  parseCredentials (req σ) = (username, password, None) ->
  status (resp σ) = None ->
  let o := authenticate inner true σ in
  (username = "" ->
     o = httpError "username required" false StatusUnauthorized σ ∧
     responds o StatusUnauthorized ∧ untouched σ o ∧
     wrote σ o (MarshalResults
                  {| server.ResultList := [];
                     server.ResultsErr := Some (influxdb.errorString "username required") |}
                  false) ∧
     (∀ inner', authenticate inner' true σ = o) ∧
     (∀ f inner', @authenticate S (withAuthenticate O f) inner' true σ = o)) ∧
  (username ≠ "" ->
     (∀ f, f (srv σ) username password = server.Authenticate (srv σ) username password ->
           @authenticate S (withAuthenticate O f) inner true σ = o) ∧
     match server.Authenticate (srv σ) username password with
     | inr user => o = inner (Some user) σ
     | inl err =>
       o = httpError (influxdb.Error err) false StatusUnauthorized σ ∧
       responds o StatusUnauthorized ∧ untouched σ o ∧
       wrote σ o (MarshalResults
                    {| server.ResultList := [];
                       server.ResultsErr := Some (influxdb.errorString (influxdb.Error err)) |}
                    false) ∧
       ∀ inner', authenticate inner' true σ = o
     end).
Proof.
  intros Hn Hp Hst o. subst o. rewrite (authenticate_unfold O inner σ _ _ Hn Hp). split.
  - intros Hu. rewrite (bool_decide_eq_true_2 _ Hu).
    destruct (httpError_responds "username required" false StatusUnauthorized σ Hst eq_refl)
      as (Hr & Hun & Hw).
    split; [done|]. split; [done|]. split; [done|]. split; [done|]. split.
    + intros inner'. rewrite (authenticate_unfold O inner' σ _ _ Hn Hp).
      by rewrite (bool_decide_eq_true_2 _ Hu).
    + intros f inner'.
      rewrite (authenticate_unfold (withAuthenticate O f) inner' σ _ _ Hn Hp).
      by rewrite (bool_decide_eq_true_2 _ Hu).
  - intros Hu. rewrite (bool_decide_eq_false_2 _ Hu). split.
    { intros f Hf.
      rewrite (authenticate_unfold (withAuthenticate O f) inner σ _ _ Hn Hp).
      rewrite (bool_decide_eq_false_2 _ Hu). simpl. by rewrite Hf. }
    destruct (server.Authenticate (srv σ) username password) as [err|user] eqn:Ha; [|done].
    destruct (httpError_responds (influxdb.Error err) false StatusUnauthorized σ Hst eq_refl)
      as (Hr & Hun & Hw).
    split; [done|]. split; [done|]. split; [done|]. split; [done|]. intros inner'.
    rewrite (authenticate_unfold O inner' σ _ _ Hn Hp).
    by rewrite (bool_decide_eq_false_2 _ Hu), Ha.
Qed.

End credentials_extras.

Section handler_extras.
Context {S : Type} `{!server.Ops S} `{!httpd.Lib} `{!client.Lib} `{!influxdb.JSON}.
Import http httpd.

Lemma httpResults_run (results : server.Results) (pretty : bool) (σ : World S) :
  status (resp σ) = None ->
  responds (httpResults results pretty σ) (statusFor (server.ResultsError results)) ∧
  untouched σ (httpResults results pretty σ) ∧
  wrote σ (httpResults results pretty σ) (MarshalResults results pretty).
Proof.
  intros Hst. unfold responds, untouched, wrote, httpResults, statusFor.
  destruct (server.ResultsError results) as [[s|text|text]|]; run; rewrite Hst;
    (split; [by eexists|done]).
Qed.

(** X8.  [httpResults] always writes the results as the body, and picks
    the status from their error: none gives 200, an [ErrAuthorize] gives
    401, and every other error gives 500, the package's own error values
    (read access denied among them) included. *)
Theorem httpResults_status (results : server.Results) (pretty : bool) (σ : World S) :
  status (resp σ) = None ->
  let o := httpResults results pretty σ in
  untouched σ o ∧ wrote σ o (MarshalResults results pretty) ∧
  (server.ResultsError results = None -> responds o StatusOK) ∧
  (∀ text, server.ResultsError results = Some (influxdb.ErrAuthorize text) ->
     responds o StatusUnauthorized) ∧
  (∀ err, server.ResultsError results = Some err -> isAuthorizationError err = false ->
     responds o StatusInternalServerError) ∧
  (∀ s, server.ResultsError results = Some (influxdb.Sentinel s) ->
     responds o StatusInternalServerError).
Proof.
  intros Hst o. subst o.
  destruct (httpResults_run results pretty σ Hst) as (Hr & Hu & Hw).
  split; [done|]. split; [done|]. repeat split.
  - intros Hn. by rewrite Hn in Hr.
  - intros text Hn. by rewrite Hn in Hr.
  - intros err Hn Ha. rewrite Hn in Hr. by destruct err.
  - intros s Hn. by rewrite Hn in Hr.
Qed.

Lemma serveQuery_unfold (user : option server.User) (σ : World S) :
  serveQuery user σ =
    let q := URLQuery (req σ) in
    let pretty := bool_decide (Get q "pretty" = "true") in
    match ParseQuery (Get q "q") with
    | inl err => httpError ("error parsing query: " +:+ influxdb.Error err) pretty
                   StatusBadRequest σ
    | inr query =>
      let r := server.ExecuteQuery (srv σ) query (Get q "db") user in
      httpResults r.2 pretty
        (set_calls (calls σ ++ [CallExecuteQuery query (Get q "db") user]) (set_srv r.1 σ))
    end.
Proof.
  unfold serveQuery, call, mbind, M_bind, bind, get. simpl.
  destruct (ParseQuery _); [done|]. by destruct (server.ExecuteQuery _ _ _ _).
Qed.

(** X9.  [serveQuery]: a query that does not parse gives 400 with an error
    that starts with "error parsing query: ", and the server is not
    called; a query that parses is executed exactly once, against the URL
    parameter db and for the user given, and the results are written with
    the status [httpResults] picks. *)
Theorem serveQuery_outcomes (user : option server.User) (σ : World S) :
  status (resp σ) = None ->
  let q := URLQuery (req σ) in
  let o := serveQuery user σ in
  match ParseQuery (Get q "q") with
  | inl err =>
    responds o StatusBadRequest ∧ untouched σ o ∧
    ∃ text, wrote σ o (MarshalResults
                         {| server.ResultList := [];
                            server.ResultsErr := Some (influxdb.errorString text) |}
                         (bool_decide (Get q "pretty" = "true"))) ∧
            String.prefix "error parsing query: " text = true
  | inr query =>
    let r := server.ExecuteQuery (srv σ) query (Get q "db") user in
    calls (final o) = calls σ ++ [CallExecuteQuery query (Get q "db") user] ∧
    srv (final o) = r.1 ∧
    wrote σ o (MarshalResults r.2 (bool_decide (Get q "pretty" = "true"))) ∧
    responds o (statusFor (server.ResultsError r.2))
  end.
Proof.
  intros Hst q o. subst q o. rewrite serveQuery_unfold. cbv zeta.
  destruct (ParseQuery _) as [err|query].
  - destruct (httpError_responds ("error parsing query: " +:+ influxdb.Error err)
       (bool_decide (Get (URLQuery (req σ)) "pretty" = "true")) StatusBadRequest σ Hst eq_refl)
       as (Hr & Hu & Hw).
    split; [done|]. split; [done|]. eexists. split; [exact Hw|].
    apply (prefix_append "error parsing query: ").
  - destruct (server.ExecuteQuery (srv σ) query _ user) as [s results] eqn:He. simpl.
    match goal with |- context [httpResults ?r ?p ?w] =>
      destruct (httpResults_run r p w Hst) as (Hr & (Hc & Hs) & Hw) end.
    split; [exact Hc|]. split; [exact Hs|]. split; [exact Hw|]. exact Hr.
Qed.

Lemma serveWrite_unfold (requireAuthentication : bool) (user : option server.User)
    (σ : World S) (bp : influxdb.BatchPoints) :
  Decode (Body (req σ)) influxdb.emptyBatch = (bp, None) ->
  influxdb.Database bp ≠ "" ->
  server.DatabaseExists (srv σ) (influxdb.Database bp) = true ->
  serveWrite requireAuthentication user σ =
    match writeAllowed requireAuthentication user (influxdb.Database bp) with
    | None => Panicked nilDereference σ
    | Some false =>
      match user with
      | None => Panicked nilDereference σ
      | Some u =>
        writeError (errResult (quote (server.UserName u)
                      +:+ " user is not authorized to write to database "
                      +:+ quote (influxdb.Database bp)))
                   StatusUnauthorized σ
      end
    | Some true =>
      let points := (influxdb.NormalizeBatchPoints bp).1 in
      let r := server.WriteSeries (srv σ) (influxdb.Database bp)
                 (influxdb.RetentionPolicy bp) points in
      let σ1 := set_calls (calls σ ++ [CallWriteSeries (influxdb.Database bp)
                                         (influxdb.RetentionPolicy bp) points])
                          (set_srv r.1 σ) in
      match r.2.2 with
      | Some err => writeError {| server.Series := []; server.Err := Some err |}
                      StatusInternalServerError σ1
      | None => Returned tt σ1
      end
    end.
Proof.
  intros Hdec Hdb Hex. unfold serveWrite, writeAllowed.
  unfold mbind at 1, M_bind at 1, bind at 1, get at 1. rewrite Hdec.
  rewrite (bool_decide_eq_false_2 _ Hdb).
  unfold mbind at 1, M_bind at 1, bind at 1, get at 1. rewrite Hex. cbn [negb].
  destruct requireAuthentication.
  - destruct (server.Authorize user server.WritePrivilege (influxdb.Database bp))
      as [[|]|]; unfold mbind, M_bind, bind, ret, panic, call; simpl; [| |done].
    + by destruct (server.WriteSeries _ _ _ _) as [s [n [err|]]].
    + by destruct user.
  - unfold mbind, M_bind, bind, ret, call; simpl.
    by destruct (server.WriteSeries _ _ _ _) as [s [n [err|]]].
Qed.

(** X10.  A write that passes the checks (the body decodes, the database is
    named and exists, the user may write or authentication is off) calls
    [WriteSeries] exactly once, with the batch's database and retention
    policy and with the normalised points, one per point of the batch.
    When [WriteSeries] succeeds the handler writes nothing at all to the
    response; when it fails the response is 500 with its error. *)
Theorem serveWrite_writes (requireAuthentication : bool) (user : option server.User)
    (σ : World S) (bp : influxdb.BatchPoints) :
  Decode (Body (req σ)) influxdb.emptyBatch = (bp, None) ->
  influxdb.Database bp ≠ "" ->
  server.DatabaseExists (srv σ) (influxdb.Database bp) = true ->
  writeAllowed requireAuthentication user (influxdb.Database bp) = Some true ->
  status (resp σ) = None ->
  let o := serveWrite requireAuthentication user σ in
  let points := (influxdb.NormalizeBatchPoints bp).1 in
  let r := server.WriteSeries (srv σ) (influxdb.Database bp)
             (influxdb.RetentionPolicy bp) points in
  length points = length (influxdb.Points bp) ∧
  calls (final o) = calls σ ++ [CallWriteSeries (influxdb.Database bp)
                                  (influxdb.RetentionPolicy bp) points] ∧
  srv (final o) = r.1 ∧
  match r.2.2 with
  | None => ∃ σ', o = Returned tt σ' ∧ resp σ' = resp σ
  | Some err =>
    responds o StatusInternalServerError ∧
    wrote σ o (EncodeResult {| server.Series := []; server.Err := Some err |})
  end.
Proof.
  intros Hdec Hdb Hex Hok Hst o points r. subst o points r.
  rewrite (serveWrite_unfold _ _ _ _ Hdec Hdb Hex), Hok. cbv zeta.
  split. { rewrite NormalizeBatchPoints_map. simpl. by rewrite length_map. }
  set (σ1 := set_calls _ _).
  destruct (server.WriteSeries _ _ _ _).2.2 as [err|].
  - assert (Hst1 : status (resp σ1) = None) by exact Hst.
    destruct (writeError_responds {| server.Series := []; server.Err := Some err |}
                StatusInternalServerError σ1 Hst1 eq_refl) as (Hr & (Hc & Hs) & Hw).
    split; [exact Hc|]. split; [exact Hs|]. split; [exact Hr|exact Hw].
  - split; [done|]. split; [done|]. by eexists.
Qed.

(** X11.  A write that passes the database checks but not the
    authorisation check never reaches the server: authentication is then
    required, no call is made, and the response is 401 when there is a user
    and [Authorize] answers no.  With a nil user, or when [Authorize]
    itself panics, the handler panics with a nil dereference. *)
Theorem serveWrite_refused (requireAuthentication : bool) (user : option server.User)
    (σ : World S) (bp : influxdb.BatchPoints) :
  Decode (Body (req σ)) influxdb.emptyBatch = (bp, None) ->
  influxdb.Database bp ≠ "" ->
  server.DatabaseExists (srv σ) (influxdb.Database bp) = true ->
  writeAllowed requireAuthentication user (influxdb.Database bp) ≠ Some true ->
  status (resp σ) = None ->
  let o := serveWrite requireAuthentication user σ in
  requireAuthentication = true ∧ untouched σ o ∧
  match user, server.Authorize user server.WritePrivilege (influxdb.Database bp) with
  | Some u, Some false => responds o StatusUnauthorized
  | _, _ => o = Panicked nilDereference σ
  end.
Proof.
  intros Hdec Hdb Hex Hno Hst o. subst o.
  rewrite (serveWrite_unfold _ _ _ _ Hdec Hdb Hex).
  unfold writeAllowed in *. destruct requireAuthentication; [|by destruct Hno].
  split; [done|].
  destruct user as [u|];
    destruct (server.Authorize _ server.WritePrivilege (influxdb.Database bp))
      as [[|]|]; try (by destruct Hno); try (by split).
  match goal with |- context [writeError ?r ?c σ] =>
    destruct (writeError_responds r c σ Hst eq_refl) as (Hr & Hu & _) end.
  by split.
Qed.

Lemma serveCreateDataNode_unfold (σ : World S) :
  serveCreateDataNode σ =
    match Decode_dataNodeJSON (Body (req σ)) with
    | inl err => httpError (influxdb.Error err) false StatusBadRequest σ
    | inr n =>
      match url_Parse (JSON_URL n) with
      | inl _ => httpError "invalid data node url" false StatusBadRequest σ
      | inr u =>
        let c := server.CreateDataNode (srv σ) u in
        let σ1 := set_calls (calls σ ++ [CallCreateDataNode u]) (set_srv c.1 σ) in
        match c.2 with
        | Some err =>
          if decide (err = influxdb.Sentinel influxdb.ErrDataNodeExists)
          then httpError (influxdb.Error err) false StatusConflict σ1
          else httpError (influxdb.Error err) false StatusInternalServerError σ1
        | None =>
          match server.DataNodeByURL c.1 u with
          | None => Panicked nilDereference σ1
          | Some node =>
            let p := server.CreateReplica c.1 (server.ID node) in
            let σ2 := set_calls (calls σ1 ++ [CallCreateReplica (server.ID node)])
                                (set_srv p.1 σ1) in
            match p.2 with
            | Some err => httpError (influxdb.Error err) false StatusBadGateway σ2
            | None =>
              bind (WriteHeader StatusCreated) (fun _ =>
                bind (Header_ (Add "content-type" "application/json")) (fun _ =>
                  Write (Data (EncodeDataNode
                           {| JSON_ID := server.ID node;
                              JSON_URL := server.URL_String (server.NodeURL node) |}))))
                σ2
            end
          end
        end
      end
    end.
Proof.
  unfold serveCreateDataNode.
  unfold mbind at 1, M_bind at 1, bind at 1, get at 1.
  destruct (Decode_dataNodeJSON _) as [err|n]; [done|].
  destruct (url_Parse _) as [err|u]; [done|].
  unfold call. unfold mbind at 1, M_bind at 1, bind at 1.
  destruct (server.CreateDataNode (srv σ) u) as [s [err|]]; simpl.
  - by destruct (decide _).
  - unfold mbind at 1, M_bind at 1, bind at 1, get at 1. simpl.
    destruct (server.DataNodeByURL s u) as [node|]; [|done].
    unfold mbind at 1, M_bind at 1, bind at 1. simpl.
    by destruct (server.CreateReplica s (server.ID node)) as [s' [err|]].
Qed.

(** X12.  The calls [serveCreateDataNode] makes to the server are, in every
    case, none, or [CreateDataNode] alone, or [CreateDataNode] followed by
    [CreateReplica] for the id of the node found: the replica is created
    only after the node was created and found again, and nothing is called
    after it, so a node whose replica could not be created is not removed. *)
Theorem serveCreateDataNode_calls (σ : World S) :
  let o := serveCreateDataNode σ in
  (calls (final o) = calls σ ∧ srv (final o) = srv σ) ∨
  ∃ u, (∃ n, Decode_dataNodeJSON (Body (req σ)) = inr n ∧ url_Parse (JSON_URL n) = inr u) ∧
    let c := server.CreateDataNode (srv σ) u in
    (calls (final o) = calls σ ++ [CallCreateDataNode u] ∧ srv (final o) = c.1 ∧
     (c.2 ≠ None ∨ server.DataNodeByURL c.1 u = None)) ∨
    ∃ node, c.2 = None ∧ server.DataNodeByURL c.1 u = Some node ∧
      calls (final o) = calls σ ++ [CallCreateDataNode u; CallCreateReplica (server.ID node)] ∧
      srv (final o) = (server.CreateReplica c.1 (server.ID node)).1.
Proof.
  intros o. subst o. rewrite serveCreateDataNode_unfold.
  destruct (Decode_dataNodeJSON _) as [err|n]; [left; by run|].
  destruct (url_Parse _) as [err|u] eqn:Hu; [left; by run|].
  right. exists u. split; [by eexists|]. cbv zeta.
  destruct (server.CreateDataNode (srv σ) u) as [s [err|]] eqn:Hc; simpl.
  - left. destruct (decide _); run; (split; [done|split; [done|by left]]).
  - destruct (server.DataNodeByURL s u) as [node|] eqn:Hn;
      [|left; simpl; split; [done|split; [done|by right]]].
    right. exists node. split; [done|]. split; [done|].
    destruct (server.CreateReplica s (server.ID node)) as [s' [err|]]; run;
      by rewrite <- app_assoc.
Qed.

Lemma serveDeleteDataNode_unfold (σ : World S) :
  serveDeleteDataNode σ =
    match ParseUint (Get (URLQuery (req σ)) ":id") with
    | None => httpError "invalid node id" false StatusBadRequest σ
    | Some id =>
      let r := server.DeleteDataNode (srv σ) id in
      let σ1 := set_calls (calls σ ++ [CallDeleteDataNode id]) (set_srv r.1 σ) in
      match r.2 with
      | Some err =>
        if decide (err = influxdb.Sentinel influxdb.ErrDataNodeNotFound)
        then httpError (influxdb.Error err) false StatusNotFound σ1
        else httpError (influxdb.Error err) false StatusInternalServerError σ1
      | None => WriteHeader StatusNoContent σ1
      end
    end.
Proof.
  unfold serveDeleteDataNode, call, mbind, M_bind, bind, get. simpl.
  destruct (ParseUint _); [|done].
  destruct (server.DeleteDataNode _ _) as [s [err|]]; simpl; [|done].
  by destruct (decide _).
Qed.

(** X13.  [serveDeleteDataNode]: an id that is not an unsigned number gives
    400 and the server is not called; otherwise [DeleteDataNode] is called
    once with the id, and the response is 204 with no body on success, 404
    for [ErrDataNodeNotFound] and 500 for any other error. *)
Theorem serveDeleteDataNode_outcomes (σ : World S) :
  status (resp σ) = None ->
  let o := serveDeleteDataNode σ in
  match ParseUint (Get (URLQuery (req σ)) ":id") with
  | None => responds o StatusBadRequest ∧ untouched σ o
  | Some id =>
    let r := server.DeleteDataNode (srv σ) id in
    calls (final o) = calls σ ++ [CallDeleteDataNode id] ∧ srv (final o) = r.1 ∧
    match r.2 with
    | None => responds o StatusNoContent ∧ body (resp (final o)) = body (resp σ)
    | Some err =>
      if decide (err = influxdb.Sentinel influxdb.ErrDataNodeNotFound)
      then responds o StatusNotFound
      else responds o StatusInternalServerError
    end
  end.
Proof.
  intros Hst o. subst o. rewrite serveDeleteDataNode_unfold.
  destruct (ParseUint _) as [id|].
  - cbv zeta. set (σ1 := set_calls _ _).
    assert (Hst1 : status (resp σ1) = None) by exact Hst.
    destruct (server.DeleteDataNode (srv σ) id).2 as [err|].
    + destruct (decide _);
        match goal with |- context [httpError ?t ?p ?c σ1] =>
          destruct (httpError_responds t p c σ1 Hst1 eq_refl) as (Hr & (Hc & Hs) & _) end;
        (split; [exact Hc|split; [exact Hs|exact Hr]]).
    + unfold responds. run. rewrite Hst. split; [done|]. split; [done|].
      split; [by eexists|done].
  - by destruct (httpError_responds "invalid node id" false StatusBadRequest σ Hst eq_refl)
      as (Hr & Hu & _).
Qed.

Lemma writeAll_run (chunks : list (list Byte.byte)) (σ : World S) :
  ∃ σ', writeAll chunks σ = Returned tt σ' ∧
        srv σ' = srv σ ∧ calls σ' = calls σ ∧ req σ' = req σ ∧ weblog σ' = weblog σ ∧
        gzip (resp σ') = gzip (resp σ) ∧
        body (resp σ') = body (resp σ)
                         ++ (if bodyAllowedForStatus (default StatusOK (status (resp σ)))
                             then map (fun b => wrap (gzip (resp σ)) (Data (Bytes b))) chunks
                             else []) ∧
        status (resp σ') = match chunks with
                           | [] => status (resp σ)
                           | _ :: _ => Some (default StatusOK (status (resp σ)))
                           end.
Proof.
  revert σ. induction chunks as [|b chunks IH]; intros σ.
  - exists σ. simpl. repeat split; try done.
    by destruct (bodyAllowedForStatus _); rewrite app_nil_r.
  - simpl. unfold bind at 1. unfold Write at 1, modify at 1.
    match goal with |- context [writeAll chunks ?w] =>
      destruct (IH w) as (σ' & -> & Hs & Hc & Hr & Hl & Hg & Hb & Hst) end.
    exists σ'. simpl in *. rewrite Hb, Hg, Hst.
    assert (Hsent : match status (resp σ) with None => StatusOK | Some c => c end
                    = default StatusOK (status (resp σ))) by by destruct (status (resp σ)).
    rewrite !Hsent. repeat split; try done.
    + destruct (bodyAllowedForStatus _); [by rewrite <- app_assoc|by rewrite app_nil_r].
    + by destruct chunks.
Qed.

Lemma serveMetastore_unfold (σ : World S) :
  serveMetastore σ =
    bind (Header_ (Set_ "Content-Type" "application/octet-stream")) (fun _ =>
      bind (Header_ (Set_ "Content-Disposition"
                       ("attachment; filename=" +:+ dquote +:+ "meta" +:+ dquote))) (fun _ =>
        bind (writeAll (server.CopyMetastore (srv σ)).1) (fun _ =>
          match (server.CopyMetastore (srv σ)).2 with
          | Some err => httpError (influxdb.Error err) false StatusInternalServerError
          | None => ret tt
          end))) σ.
Proof. reflexivity. Qed.

Lemma serveMetastore_run (σ : World S) :
  ∃ σ', serveMetastore σ =
          match (server.CopyMetastore (srv σ)).2 with
          | Some err => httpError (influxdb.Error err) false StatusInternalServerError σ'
          | None => Returned tt σ'
          end ∧
        srv σ' = srv σ ∧ calls σ' = calls σ ∧ gzip (resp σ') = gzip (resp σ) ∧
        body (resp σ') = body (resp σ)
                         ++ (if bodyAllowedForStatus (default StatusOK (status (resp σ)))
                             then map (fun b => wrap (gzip (resp σ)) (Data (Bytes b)))
                                      (server.CopyMetastore (srv σ)).1
                             else []) ∧
        status (resp σ') = match (server.CopyMetastore (srv σ)).1 with
                           | [] => status (resp σ)
                           | _ :: _ => Some (default StatusOK (status (resp σ)))
                           end.
Proof.
  rewrite serveMetastore_unfold.
  unfold bind at 1. unfold Header_ at 1, modify at 1.
  unfold bind at 1. unfold Header_ at 1, modify at 1.
  unfold bind at 1.
  match goal with |- context [writeAll ?c ?w] =>
    destruct (writeAll_run c w) as (σ' & -> & Hs & Hc & Hr & Hl & Hg & Hb & Hst') end.
  exists σ'. split; [by destruct (server.CopyMetastore (srv σ)).2|]. done.
Qed.

(** X14.  [serveMetastore] never changes the server.  Its status depends on
    what the copy had written when it failed: a copy that fails before
    writing anything gives 500, but one that fails after a first write is
    answered 200, the status that write sent, with the error appended to
    the bytes already written. *)
Theorem serveMetastore_status (σ : World S) :
  status (resp σ) = None ->
  let o := serveMetastore σ in
  let copy := server.CopyMetastore (srv σ) in
  untouched σ o ∧
  match copy.1, copy.2 with
  | [], None => ∃ σ', o = Returned tt σ' ∧ status (resp σ') = None ∧
                      body (resp σ') = body (resp σ)
  | [], Some err => responds o StatusInternalServerError
  | _ :: _, None => responds o StatusOK
  | _ :: _, Some err =>
    responds o StatusOK ∧
    ∃ sent, body (resp (final o)) = body (resp σ) ++ sent
              ++ [wrap (gzip (resp σ))
                    (Data (MarshalResults
                       {| server.ResultList := [];
                          server.ResultsErr := Some (influxdb.errorString (influxdb.Error err)) |}
                       false))] ∧
            length sent = length copy.1
  end.
Proof.
  intros Hst o copy. subst o copy.
  destruct (serveMetastore_run σ) as (σ' & -> & Hs & Hc & Hg & Hb & Hst').
  rewrite Hst in Hst', Hb.
  change (bodyAllowedForStatus (default StatusOK None)) with true in Hb. cbv iota in Hb.
  destruct (server.CopyMetastore (srv σ)) as [chunks err]. cbn [fst snd] in *.
  destruct err as [err|].
  - unfold untouched, responds. run. rewrite Hs, Hc, Hb, Hg, Hst'.
    destruct chunks as [|b chunks]; simpl.
    + split; [done|]. by eexists.
    + split; [done|]. split; [by eexists|].
      eexists. split; [by rewrite <- app_assoc|]. simpl. by rewrite length_map.
  - unfold untouched, responds. simpl. rewrite Hs, Hc.
    destruct chunks as [|b chunks]; simpl in *.
    + split; [done|]. exists σ'. by rewrite Hb, app_nil_r.
    + split; [done|]. by eexists.
Qed.

(** X15.  [serveProcessContinuousQueries] runs the continuous queries once,
    whoever the user is, and answers 202 with no body, or 500 when the
    run fails. *)
Theorem serveProcessContinuousQueries_status (u u' : option server.User) (σ : World S) :
  status (resp σ) = None ->
  let o := serveProcessContinuousQueries u σ in
  let r := server.RunContinuousQueries (srv σ) in
  serveProcessContinuousQueries u' σ = o ∧
  calls (final o) = calls σ ++ [CallRunContinuousQueries] ∧ srv (final o) = r.1 ∧
  match r.2 with
  | None => responds o StatusAccepted ∧ body (resp (final o)) = body (resp σ)
  | Some err => responds o StatusInternalServerError
  end.
Proof.
  intros Hst o r. subst o r. split; [done|].
  unfold serveProcessContinuousQueries, call, responds. run.
  destruct (server.RunContinuousQueries (srv σ)) as [s [err|]]; simpl; rewrite Hst;
    (split; [done|split; [done|]]); [by eexists|]. split; [by eexists|done].
Qed.

End handler_extras.

Section filter_extras.
Context {S : Type} `{!server.Ops S} `{!httpd.Lib}.
Import http httpd.

(** X16.  For a request that is not a preflight, [cors] runs the handler it
    wraps, once, after setting at most headers: with no Origin in the
    request the response is untouched, and with one the response allows
    that origin, the five methods and the seven headers. *)
Theorem cors_headers (inner : M S unit) (σ : World S) :
  Method (req σ) ≠ "OPTIONS" ->
  ∃ σ1, cors inner σ = inner σ1 ∧
    srv σ1 = srv σ ∧ req σ1 = req σ ∧ calls σ1 = calls σ ∧ weblog σ1 = weblog σ ∧
    status (resp σ1) = status (resp σ) ∧ body (resp σ1) = body (resp σ) ∧
    let origin := HeaderGet (Header (req σ)) "Origin" in
    (origin = "" -> σ1 = σ) ∧
    (origin ≠ "" ->
       HeaderGet (header (resp σ1)) "Access-Control-Allow-Origin" = origin ∧
       HeaderGet (header (resp σ1)) "Access-Control-Allow-Methods"
         = "DELETE, GET, OPTIONS, POST, PUT" ∧
       HeaderGet (header (resp σ1)) "Access-Control-Allow-Headers"
         = "Accept, Accept-Encoding, Authorization, Content-Length, Content-Type, X-CSRF-Token, X-HTTP-Method-Override").
Proof.
  intros Hm. unfold cors.
  destruct (bool_decide_reflect (HeaderGet (Header (req σ)) "Origin" = "")) as [Ho|Ho].
  - exists σ. split.
    { run. rewrite (bool_decide_eq_true_2 _ Ho), (bool_decide_eq_false_2 _ Hm). simpl.
      by destruct σ as [? ? []]. }
    repeat split; done.
  - eexists. split.
    { run. rewrite (bool_decide_eq_false_2 _ Ho), (bool_decide_eq_false_2 _ Hm). simpl.
      reflexivity. }
    simpl. repeat split; try done; by rewrite !HeaderGet_Set.
Qed.

(** X17.  [requestID] gives the request and the response the same
    Request-Id, the next UUID of the generator, replacing one the client
    sent: that is what every spelling of the key reads afterwards, in
    both.  It changes no header with another canonical key, and writes
    nothing, before it runs the handler it wraps. *)
Theorem requestID_headers (inner : M S unit) (σ : World S) :
  ∃ σ1, requestID inner σ = inner σ1 ∧
    (∀ k, CanonicalMIMEHeaderKey k = "Request-Id" ->
          HeaderGet (Header (req σ1)) k = hd "" (uuids σ) ∧
          HeaderGet (header (resp σ1)) k = hd "" (uuids σ)) ∧
    uuids σ1 = tl (uuids σ) ∧
    (∀ k, CanonicalMIMEHeaderKey k ≠ "Request-Id" ->
          HeaderGet (Header (req σ1)) k = HeaderGet (Header (req σ)) k ∧
          HeaderGet (header (resp σ1)) k = HeaderGet (header (resp σ)) k) ∧
    same σ σ1 ∧ Body (req σ1) = Body (req σ) ∧ body (resp σ1) = body (resp σ) ∧
    calls σ1 = calls σ ∧ weblog σ1 = weblog σ.
Proof.
  assert (Hcanon : CanonicalMIMEHeaderKey "Request-Id" = "Request-Id") by reflexivity.
  unfold requestID, NewUUID.
  destruct (uuids σ) as [|uid rest] eqn:Hu;
    (eexists; split; [run; rewrite Hu; simpl; reflexivity|]); simpl;
    (split; [|split; [done|split; [|done]]]); intros k Hk;
    rewrite !HeaderGet_Set, ?Hcanon; repeat case_decide; (done || congruence).
Qed.

(** X18.  [gzipFilter] is the handler it wraps when the request does not
    accept gzip.  When it does, the handler runs with the Content-Encoding
    set and its writes going through the gzip writer, and the gzip stream
    is closed after it whether it returns or panics.  Closing always sends
    a status (200 when the handler set none) and writes the end of the
    stream last, unless the status the handler sent allows no body (1xx,
    204, 304): then the response writer refuses the write and the body
    stays as the handler left it.  A panic goes on with the same value. *)
Theorem gzipFilter_stream (inner : M S unit) (σ : World S) :
  (Contains (HeaderGet (Header (req σ)) "Accept-Encoding") "gzip" = false ->
     gzipFilter inner σ = inner σ) ∧
  (Contains (HeaderGet (Header (req σ)) "Accept-Encoding") "gzip" = true ->
     let o := inner (gzipEntry σ) in
     let o' := gzipFilter inner σ in
     let sent := default StatusOK (status (resp (final o))) in
     panicked o' = panicked o ∧
     body (resp (final o')) =
       body (resp (final o))
       ++ (if bodyAllowedForStatus sent then [wrap (gzip (resp σ)) GzipEnd] else []) ∧
     gzip (resp (final o')) = gzip (resp σ) ∧
     status (resp (final o')) = Some sent ∧
     header (resp (final o')) = header (resp (final o)) ∧
     srv (final o') = srv (final o) ∧ calls (final o') = calls (final o)).
Proof.
  split; intros Hg.
  - unfold gzipFilter. unfold mbind at 1, M_bind at 1, bind at 1, get at 1.
    rewrite Hg. reflexivity.
  - intros o o' sent. subst o o' sent.
    assert (Heq : gzipFilter inner σ
                  = defer (gzClose (gzip (resp σ))) inner (gzipEntry σ)).
    { unfold gzipFilter. unfold mbind at 1, M_bind at 1, bind at 1, get at 1.
      rewrite Hg. reflexivity. }
    rewrite Heq. unfold defer.
    destruct (inner (gzipEntry σ)) as [[] σ'|v σ']; unfold gzClose, set_gzip; run;
      destruct (status (resp σ')) as [c|]; simpl;
      try (destruct (bodyAllowedForStatus c)); by rewrite ?app_nil_r.
Qed.

Lemma entered_refl (σ : World S) : entered σ σ.
Proof. split; [apply same_refl|done]. Qed.

Lemma entered_trans (σ σ1 σ2 : World S) :
  entered σ σ1 -> entered σ1 σ2 -> entered σ σ2.
Proof.
  intros (a1 & a2 & a3 & a4 & a5) (b1 & b2 & b3 & b4 & b5).
  split; [by eapply same_trans|]. repeat split; congruence.
Qed.

Lemma passes_id : passes 0 (fun o : Outcome S unit => o).
Proof.
  intros o. repeat split. exists []. split; [by rewrite app_nil_r|by destruct (panicked o)].
Qed.

Lemma wraps_compose (W1 W2 : M S unit -> M S unit) (n1 n2 : nat) (σ : World S) :
  wraps W1 n1 σ -> (∀ σ1, entered σ σ1 -> wraps W2 n2 σ1) ->
  wraps (fun h => W1 (W2 h)) (n1 + n2) σ.
Proof.
  intros (σ1 & k1 & Hs1 & Hk1 & HW1) Hnext.
  destruct (Hnext σ1 Hs1) as (σ2 & k2 & Hs2 & Hk2 & HW2).
  exists σ2, (fun o => k1 (k2 o)). split; [by eapply entered_trans|]. split.
  - intros o. destruct (Hk2 o) as (Hp2 & Hsrv2 & Hc2 & l2 & Hl2 & Hn2).
    destruct (Hk1 (k2 o)) as (Hp1 & Hsrv1 & Hc1 & l1 & Hl1 & Hn1).
    split; [congruence|]. split; [congruence|]. split; [congruence|].
    exists (l2 ++ l1). split.
    + by rewrite Hl1, Hl2, app_assoc.
    + rewrite length_app, Hn2, Hn1, Hp2. destruct (panicked o); lia.
  - intros h. by rewrite HW1, HW2.
Qed.

Lemma wraps_recovery (name : string) (σ : World S) :
  wraps (fun h => recovery h name) 0 σ.
Proof.
  exists σ, (fun o => match o with
                      | Returned _ σ' => Returned tt σ'
                      | Panicked v σ' => Panicked v σ'
                      end).
  split; [apply entered_refl|]. split.
  - intros [[] σ'|v σ']; repeat split; exists []; by rewrite app_nil_r.
  - intros h. unfold recovery. run. by destruct (h σ).
Qed.

Lemma wraps_logging (name : string) (σ : World S) :
  wraps (fun h => logging h name) 1 σ.
Proof.
  exists σ, (fun o =>
    match o with
    | Returned _ σ' =>
      Returned tt (set_weblog (weblog σ' ++ [buildLogLine (resp σ') (req σ') (clock σ)]) σ')
    | Panicked v σ' => Panicked v σ'
    end).
  split; [apply entered_refl|]. split.
  - intros [[] σ'|v σ']; repeat split.
    + by eexists [_].
    + exists []. by rewrite app_nil_r.
  - intros h. unfold logging. run. by destruct (h σ).
Qed.

Lemma wraps_requestID (σ : World S) : wraps requestID 0 σ.
Proof.
  unfold wraps, requestID, NewUUID.
  destruct (uuids σ) as [|uid rest] eqn:Hu;
    (eexists _, (fun o => o); split; [|split];
     [|apply passes_id|intros h; run; rewrite Hu; simpl; reflexivity]);
    by repeat split.
Qed.

Lemma wraps_cors (σ : World S) : Method (req σ) ≠ "OPTIONS" -> wraps cors 0 σ.
Proof.
  intros Hm. unfold wraps, cors.
  destruct (negb (bool_decide (HeaderGet (Header (req σ)) "Origin" = ""))) eqn:Ho;
    (eexists _, (fun o => o); split; [|split];
     [|apply passes_id
      |intros h; run; rewrite Ho, (bool_decide_eq_false_2 _ Hm); simpl; reflexivity]);
    by repeat split.
Qed.

Lemma wraps_versionHeader (version : string) (σ : World S) :
  wraps (fun h => versionHeader h version) 0 σ.
Proof.
  eexists _, (fun o => o). split; [|split];
    [|apply passes_id|intros h; unfold versionHeader; run; reflexivity].
  by repeat split.
Qed.

Lemma wraps_gzipFilter (σ : World S) : wraps gzipFilter 0 σ.
Proof.
  unfold wraps, gzipFilter.
  destruct (negb (Contains (HeaderGet (Header (req σ)) "Accept-Encoding") "gzip")) eqn:Hg.
  - exists σ, (fun o => o). split; [apply entered_refl|]. split; [apply passes_id|].
    intros h. run. by rewrite Hg.
  - eexists _, (fun o => defer (gzClose (gzip (resp σ))) (fun _ => o) σ).
    split; [|split].
    2: { intros [[] σ'|v σ']; unfold defer, gzClose, set_gzip; run; repeat split;
           exists []; by rewrite app_nil_r. }
    2: { intros h. unfold defer. run. rewrite Hg. simpl. reflexivity. }
    by repeat split.
Qed.

Lemma wraps_chain (name version : string) (σ : World S) :
  Method (req σ) ≠ "OPTIONS" -> wraps (fun h => chain h name version) 1 σ.
Proof.
  intros Hm. unfold chain.
  assert (Hmeth : ∀ σ1, entered σ σ1 -> Method (req σ1) ≠ "OPTIONS").
  { intros σ1 ((_ & _ & _ & Hm1 & _) & _). congruence. }
  change 1%nat with (0 + (1 + (0 + (0 + (0 + 0)))))%nat.
  apply (wraps_compose (fun h => recovery h name)); [apply wraps_recovery|].
  intros σ1 Hs1.
  apply (wraps_compose (fun h => logging h name)); [apply wraps_logging|].
  intros σ2 Hs2.
  apply (wraps_compose requestID); [apply wraps_requestID|].
  intros σ3 Hs3.
  apply (wraps_compose cors).
  { apply wraps_cors.
    apply Hmeth. eapply entered_trans; [|exact Hs3]. by eapply entered_trans. }
  intros σ4 Hs4.
  apply (wraps_compose (fun h => versionHeader h version)); [apply wraps_versionHeader|].
  intros σ5 Hs5. apply wraps_gzipFilter.
Qed.

(** X19.  For a request that is not a preflight, the six wrappers of a route
    run its handler exactly once, in a world where the server, the
    credentials, the method and the body of the request are as they arrived
    and nothing was written, called or printed yet.  Afterwards a panic of
    the handler is still a panic with the same value, the server is as the
    handler left it, and exactly one line is printed when the handler
    returned, none when it panicked. *)
Theorem chain_runs_handler_once (name version : string) (σ : World S) :
  Method (req σ) ≠ "OPTIONS" ->
  ∃ σ1, entered σ σ1 ∧
    ∀ h : M S unit,
      let o := h σ1 in
      let o' := chain h name version σ in
      panicked o' = panicked o ∧ srv (final o') = srv (final o) ∧
      calls (final o') = calls (final o) ∧
      ∃ lines, weblog (final o') = weblog (final o) ++ lines ∧
               length lines = match panicked o with Some _ => 0%nat | None => 1%nat end.
Proof.
  intros Hm. destruct (wraps_chain name version σ Hm) as (σ1 & k & He & Hk & HW).
  exists σ1. split; [exact He|]. intros h o o'. subst o o'. rewrite HW. apply Hk.
Qed.

(** X20.  A preflight request (method OPTIONS) through the six wrappers of
    any route returns without running the handler, so without
    authentication either: the server is not called, no status and no body
    are written, and one line is printed. *)
Theorem chain_preflight (h : M S unit) (name version : string) (σ : World S) :
  Method (req σ) = "OPTIONS" ->
  ∃ σ', chain h name version σ = Returned tt σ' ∧
        srv σ' = srv σ ∧ calls σ' = calls σ ∧
        status (resp σ') = status (resp σ) ∧ body (resp σ') = body (resp σ) ∧
        length (weblog σ') = Datatypes.S (length (weblog σ)) ∧
        ∀ h', chain h' name version σ = Returned tt σ'.
Proof.
  intros Hm. unfold chain, recovery, logging, requestID, NewUUID, cors.
  destruct (uuids σ) as [|uid rest] eqn:Hu; run; rewrite Hu; simpl; rewrite Hm; simpl;
    destruct (negb _); simpl;
    (eexists; split; [reflexivity|]; simpl; rewrite length_app; simpl;
     repeat split; try done; lia).
Qed.

End filter_extras.

(** * The further properties on concrete batches and requests *)

Section extras_examples.
Import http httpd sample requests.
#[local] Existing Instance sample.clientLib.
#[local] Existing Instance sample.json.
#[local] Existing Instance sample.httpLib.
#[local] Existing Instance sample.serverOps.

(** X2 at a batch whose one point has a timestamp and a precision. *)
Lemma NormalizeBatchPoints_defaults_sample :
  let p := {| client.Name := "cpu"; client.Tags := None; client.Timestamp := time.Hour;
              client.Values := None; client.Precision := "s" |} in
  let bp := withPoints sample.stamped [p] in
  influxdb.NormalizeBatchPoints (restamped bp 7 "h") = influxdb.NormalizeBatchPoints bp.
Proof.
  intros p bp. apply NormalizeBatchPoints_defaults.
  constructor; [|constructor]. split; [reflexivity|discriminate].
Defined.

(** X5 at the first error value. *)
Lemma sentinel_text_injective_sample :
  influxdb.sentinel_text influxdb.ErrServerOpen = "server already open" ∧
  influxdb.ErrServerOpen = influxdb.ErrServerOpen.
Proof.
  split; [reflexivity|].
  apply (sentinel_text_injective influxdb.ErrServerOpen influxdb.ErrServerOpen). reflexivity.
Defined.

(** X7 at a good and at a bad password, and at an empty user name: there
    the answer is 401 with "username required", also at a server whose
    [Authenticate] lets everyone in. *)
Lemma authenticate_credentials_sample :
  authenticate (fun _ => servePing) true goodLogin = servePing goodLogin ∧
  responds (authenticate (fun _ => servePing) true badLogin) StatusUnauthorized ∧
  server.UserCount (srv emptyName) > 0 ∧
  parseCredentials (req emptyName) = ("", "secret", None) ∧
  responds (authenticate (fun _ => servePing) true emptyName) StatusUnauthorized ∧
  body (resp (final (authenticate (fun _ => servePing) true emptyName)))
    = [Data (MarshalResults
               {| server.ResultList := [];
                  server.ResultsErr := Some (influxdb.errorString "username required") |}
               false)] ∧
  @server.Authenticate state lenient (srv emptyName) "" "secret" = inr reader ∧
  @authenticate state lenient (fun _ => servePing) true emptyName
    = authenticate (fun _ => servePing) true emptyName.
Proof.
  split; [|split; [|split; [reflexivity|split; [reflexivity|]]]].
  - destruct (authenticate_credentials (fun _ => servePing) goodLogin "admin" "secret")
      as (_ & Hok); [reflexivity..|]. apply Hok. discriminate.
  - destruct (authenticate_credentials (fun _ => servePing) badLogin "admin" "guess")
      as (_ & Hbad); [reflexivity..|]. apply Hbad. discriminate.
  - destruct (authenticate_credentials (fun _ => servePing) emptyName "" "secret")
      as (Hempty & _); [reflexivity..|].
    destruct (Hempty eq_refl) as (_ & Hr & _ & Hw & _ & Hany).
    split; [exact Hr|]. split; [exact Hw|]. split; [reflexivity|].
    exact (Hany (fun _ _ _ => inr reader) (fun _ => servePing)).
Defined.

(** X8 at results with the error of a denied read: the status is 500. *)
Lemma httpResults_status_sample :
  status (resp anonymousGet) = None ∧
  responds (httpResults denied false anonymousGet) StatusInternalServerError.
Proof.
  split; [reflexivity|].
  destruct (httpResults_status denied false anonymousGet eq_refl)
    as (_ & _ & _ & _ & _ & Hs).
  by apply (Hs influxdb.ErrReadAccessDenied).
Defined.

(** X9 at a query that parses. *)
Lemma serveQuery_outcomes_sample :
  status (resp aQuery) = None ∧
  responds (serveQuery None aQuery) StatusOK ∧
  calls (final (serveQuery None aQuery))
    = [CallExecuteQuery {| server.Statements := ["SELECT 1"] |} "db" None].
Proof.
  split; [reflexivity|].
  pose proof (serveQuery_outcomes None aQuery eq_refl) as Hq.
  destruct Hq as (Hc & _ & _ & Hr). split; [exact Hr|exact Hc].
Defined.

(** X10 at a write without authentication. *)
Lemma serveWrite_writes_sample :
  writeAllowed false None "db" = Some true ∧
  calls (final (serveWrite false None writeDb)) = [CallWriteSeries "db" "" []] ∧
  ∃ σ', serveWrite false None writeDb = Returned tt σ' ∧ resp σ' = resp writeDb.
Proof.
  split; [reflexivity|].
  pose proof (serveWrite_writes false None writeDb
    {| influxdb.Points := []; influxdb.Database := "db";
       influxdb.RetentionPolicy := ""; influxdb.BatchTags := None;
       influxdb.BatchTimestamp := time.zero; influxdb.BatchPrecision := "" |}
    eq_refl ltac:(discriminate) eq_refl eq_refl eq_refl) as Hw.
  destruct Hw as (_ & Hc & _ & Hr). split; [exact Hc|exact Hr].
Defined.

(** X11 at the same write with authentication, from a user who may not
    write. *)
Lemma serveWrite_refused_sample :
  writeAllowed true (Some reader) "db" = Some false ∧
  responds (serveWrite true (Some reader) writeDb) StatusUnauthorized ∧
  calls (final (serveWrite true (Some reader) writeDb)) = [].
Proof.
  split; [reflexivity|].
  pose proof (serveWrite_refused true (Some reader) writeDb
    {| influxdb.Points := []; influxdb.Database := "db";
       influxdb.RetentionPolicy := ""; influxdb.BatchTags := None;
       influxdb.BatchTimestamp := time.zero; influxdb.BatchPrecision := "" |}
    eq_refl ltac:(discriminate) eq_refl ltac:(discriminate) eq_refl) as Hw.
  destruct Hw as (_ & (Hc & _) & Hr). split; [exact Hr|exact Hc].
Defined.

(** X13 at the deletion of the one data node. *)
Lemma serveDeleteDataNode_outcomes_sample :
  status (resp deleteA) = None ∧
  responds (serveDeleteDataNode deleteA) StatusNoContent ∧
  calls (final (serveDeleteDataNode deleteA)) = [CallDeleteDataNode 1] ∧
  server.DataNodes (srv (final (serveDeleteDataNode deleteA))) = [].
Proof.
  split; [reflexivity|].
  pose proof (serveDeleteDataNode_outcomes deleteA eq_refl) as Hd.
  destruct Hd as (Hc & Hs & Hr & _). split; [exact Hr|]. split; [exact Hc|].
  rewrite Hs. reflexivity.
Defined.

(** X14 at three copies of the metastore: one that writes two chunks, one
    that fails after a first chunk and is answered 200 with the error after
    the chunk, and one that fails before writing and is answered 500. *)
Lemma serveMetastore_status_sample :
  status (resp anonymousGet) = None ∧
  responds (@serveMetastore state copyWorks anonymousGet) StatusOK ∧
  responds (@serveMetastore state copyFailsLate anonymousGet) StatusOK ∧
  body (resp (final (@serveMetastore state copyFailsLate anonymousGet)))
    = [Data (Bytes (bytesOf "meta"));
       Data (MarshalResults
               {| server.ResultList := [];
                  server.ResultsErr := Some (influxdb.errorString "disk failure") |}
               false)] ∧
  responds (@serveMetastore state copyFailsFirst anonymousGet) StatusInternalServerError ∧
  untouched anonymousGet (@serveMetastore state copyFailsLate anonymousGet).
Proof.
  split; [reflexivity|].
  destruct (@serveMetastore_status state copyWorks anonymousGet eq_refl) as (_ & Hworks).
  destruct (@serveMetastore_status state copyFailsLate anonymousGet eq_refl)
    as (Hleft & Hlate & _).
  destruct (@serveMetastore_status state copyFailsFirst anonymousGet eq_refl)
    as (_ & Hfirst).
  split; [exact Hworks|]. split; [exact Hlate|]. split; [reflexivity|].
  split; [exact Hfirst|exact Hleft].
Defined.

(** X15 at the sample server. *)
Lemma serveProcessContinuousQueries_status_sample :
  status (resp anonymousGet) = None ∧
  responds (serveProcessContinuousQueries None anonymousGet) StatusAccepted.
Proof.
  split; [reflexivity|].
  pose proof (serveProcessContinuousQueries_status None None anonymousGet eq_refl) as Hq.
  destruct Hq as (_ & _ & _ & Hr & _). exact Hr.
Defined.

(** X16 at a request from another origin. *)
Lemma cors_headers_sample :
  Method (req crossOrigin) ≠ "OPTIONS" ∧
  ∃ σ1, cors servePing crossOrigin = servePing σ1 ∧
        HeaderGet (header (resp σ1)) "Access-Control-Allow-Origin" = "http://example.org".
Proof.
  assert (Hm : Method (req crossOrigin) ≠ "OPTIONS") by discriminate.
  split; [exact Hm|].
  destruct (cors_headers servePing crossOrigin Hm)
    as (σ1 & Hrun & _ & _ & _ & _ & _ & _ & _ & Hset).
  exists σ1. split; [exact Hrun|]. apply Hset. discriminate.
Defined.

(** X17 at a request that sends its own request id under a key in lower
    case: every spelling of the key reads the new UUID afterwards. *)
Lemma requestID_headers_sample :
  HeaderGet (Header (req ownRequestID)) "Request-Id" = "mine" ∧
  ∃ σ1, requestID servePing ownRequestID = servePing σ1 ∧
        HeaderGet (Header (req σ1)) "request-id" = "6ba7b810-9dad-11d1-80b4-00c04fd430c8" ∧
        HeaderGet (header (resp σ1)) "REQUEST-ID" = "6ba7b810-9dad-11d1-80b4-00c04fd430c8".
Proof.
  split; [reflexivity|].
  destruct (requestID_headers servePing ownRequestID) as (σ1 & Hrun & Hset & _).
  exists σ1. split; [exact Hrun|].
  split; [exact (proj1 (Hset "request-id" eq_refl))|exact (proj2 (Hset "REQUEST-ID" eq_refl))].
Defined.

(** X18 at a request that accepts gzip: around [servePing], which answers
    204, the end of the stream is refused and the body stays empty; around
    [serveStatus] it is the last write. *)
Lemma gzipFilter_stream_sample :
  Contains (HeaderGet (Header (req gzipGet)) "Accept-Encoding") "gzip" = true ∧
  status (resp (final (gzipFilter servePing gzipGet))) = Some StatusNoContent ∧
  body (resp (final (gzipFilter servePing gzipGet))) = [] ∧
  status (resp (final (gzipFilter serveStatus gzipGet))) = Some StatusOK ∧
  body (resp (final (gzipFilter serveStatus gzipGet)))
    = [Gzipped (Data (MarshalStatus 1 0 false)); GzipEnd].
Proof.
  split; [reflexivity|].
  destruct (gzipFilter_stream servePing gzipGet) as (_ & Hping).
  destruct (Hping eq_refl) as (_ & Hb & _ & Hs & _).
  destruct (gzipFilter_stream serveStatus gzipGet) as (_ & Hstatus).
  destruct (Hstatus eq_refl) as (_ & Hb' & _ & Hs' & _).
  split; [exact Hs|]. split; [exact Hb|]. split; [exact Hs'|exact Hb'].
Defined.

(** X19 at a GET: one line is printed around the route ping. *)
Lemma chain_runs_handler_once_sample :
  Method (req anonymousGet) ≠ "OPTIONS" ∧
  ∃ σ1, entered anonymousGet σ1 ∧
        panicked (chain servePing "ping" "0.9" anonymousGet) = panicked (servePing σ1).
Proof.
  assert (Hm : Method (req anonymousGet) ≠ "OPTIONS") by discriminate.
  split; [exact Hm|].
  destruct (chain_runs_handler_once "ping" "0.9" anonymousGet Hm) as (σ1 & He & Hh).
  exists σ1. split; [exact He|]. by destruct (Hh servePing).
Defined.

(** X20 at a preflight to the route write. *)
Lemma chain_preflight_sample :
  Method (req preflight) = "OPTIONS" ∧
  ∃ σ', chain (authenticate (serveWrite true) true) "write" "0.9" preflight = Returned tt σ' ∧
        status (resp σ') = None ∧ calls σ' = [].
Proof.
  split; [reflexivity|].
  destruct (chain_preflight (authenticate (serveWrite true) true) "write" "0.9" preflight
              eq_refl) as (σ' & Hrun & _ & Hc & Hst & _).
  exists σ'. split; [exact Hrun|]. split; [exact Hst|exact Hc].
Defined.

End extras_examples.
